(** * SPIKE AI backend: routing, plan validation and date resolution

  A shallow embedding of the Python sources under [app/]:
  - [app/utils/ga4_validation.py]  (module [ga4_validation])
  - [app/utils/date_parser.py]     (module [date_parser])
  - [app/utils/llm.py]             (module [llm])
  - [app/agents/seo_agent.py]      (module [seo_agent])
  - [app/agents/ga4_agent.py]      (module [ga4_agent])
  - [app/orchestrator.py]          (module [orchestrator])

  Python values are modelled as follows.  A [str] whose characters have
  code points below 256 is a [string], one [ascii] per character ([len] is
  [String.length]).  A
  [list] is a [list]; a [set] of strings is a [gset string]; a [dict] with a
  fixed set of possible keys is a record of [option] fields ([None] = key
  absent), and an open-ended [dict] is a [gmap string _].  Python integers are
  unbounded, hence [N] or [Z].  A call that may raise returns a [result]. *)

From Stdlib Require Import ZArith Ascii String.
From stdpp Require Import base decidable option list gmap strings pretty.

Local Open Scope Z_scope.
Set Warnings "-register-all".

(** ** The fragment of Python's built-ins used by the sources *)
Module Py.

(** Exceptions, by class, each with its [str(e)] message.  All of them are
    subclasses of [Exception]; [OtherException] stands for any class not
    listed. *)
Inductive exn : Type :=
| ValueError (msg : string)
| NameError (msg : string)
| KeyError (msg : string)
| IndexError (msg : string)
| AttributeError (msg : string)
| OtherException (msg : string).

Definition str_of_exn (e : exn) : string :=
  match e with
  | ValueError m | NameError m | KeyError m | IndexError m | AttributeError m
  | OtherException m => m
  end.

Inductive result (A : Type) : Type :=
| Ok (a : A)
| Raise (e : exn).
Arguments Ok {A} a.
Arguments Raise {A} e.

Definition bind {A B} (r : result A) (k : A -> result B) : result B :=
  match r with
  | Ok a => k a
  | Raise e => Raise e
  end.

Definition raises {A} (r : result A) : Prop :=
  match r with Ok _ => False | Raise _ => True end.

(** *** Characters *)

Definition code (c : ascii) : N := N_of_ascii c.

Definition is_upper (c : ascii) : bool := (65 <=? code c)%N && (code c <=? 90)%N.

Definition is_digit (c : ascii) : bool := (48 <=? code c)%N && (code c <=? 57)%N.

(** [str.lower] on one character: the letters [A] to [Z], and the capital
    letters of the upper half of the table (192 to 222, without the
    multiplication sign at 215). *)
Definition lower_char (c : ascii) : ascii :=
  if is_upper c
     || ((192 <=? code c)%N && (code c <=? 222)%N && negb (code c =? 215)%N)
  then ascii_of_N (code c + 32) else c.

(** *** Strings *)

(** [s.lower()] *)
Fixpoint lower (s : string) : string :=
  match s with
  | EmptyString => EmptyString
  | String c s' => String (lower_char c) (lower s')
  end.

(** [s.replace(a, b)] for one-character [a] and [b]. *)
Fixpoint replace_char (a b : ascii) (s : string) : string :=
  match s with
  | EmptyString => EmptyString
  | String c s' => String (if Ascii.eqb c a then b else c) (replace_char a b s')
  end.

(** [s.startswith(p)] *)
Definition startswith (p s : string) : bool := String.prefix p s.

(** [sub in s] for strings. *)
Fixpoint contains (sub s : string) : bool :=
  String.prefix sub s ||
  match s with
  | EmptyString => false
  | String _ s' => contains sub s'
  end.

(** [any(word in s for word in words)] *)
Definition any_in (words : list string) (s : string) : bool :=
  existsb (fun word => contains word s) words.

(** [sep.join(l)] *)
Definition join (sep : string) (l : list string) : string := String.concat sep l.

(** [str(n)] for a non-negative integer. *)
Definition str_of_N (n : N) : string := pretty n.

(** *** Conversions between [int] and [str]

    CPython limits the length of a decimal conversion in either direction:
    [sys.get_int_max_str_digits()], which is 4300 unless configured
    otherwise.  A conversion beyond the limit raises [ValueError]. *)
Definition int_max_str_digits : nat := 4300.
Arguments int_max_str_digits : simpl never.

(** The value of a string of decimal digits. *)
Definition int_of_digits (ds : string) : N :=
  fold_left (fun acc c => (10 * acc + (code c - 48))%N) (list_ascii_of_string ds) 0%N.

(** [int(ds)] for a non-empty string of decimal digits: every digit counts
    towards the limit, leading zeros included. *)
Definition int_of_str (ds : string) : result N :=
  if Nat.ltb int_max_str_digits (String.length ds)
  then Raise (ValueError
                ("Exceeds the limit (4300 digits) for integer string conversion: "
                   +:+ "value has " +:+ pretty (String.length ds)
                   +:+ " digits; use sys.set_int_max_str_digits() to increase the limit"))
  else Ok (int_of_digits ds).

(** [str(n)], also as an f-string renders [{n}], for a non-negative
    integer. *)
Definition str_of_int (n : N) : result string :=
  if Nat.ltb int_max_str_digits (String.length (pretty n))
  then Raise (ValueError
                ("Exceeds the limit (4300 digits) for integer string conversion; "
                   +:+ "use sys.set_int_max_str_digits() to increase the limit"))
  else Ok (pretty n).

(** *** Values held in the response dictionaries (JSON-like) *)

Inductive Value : Type :=
| VStr (s : string)
| VInt (n : Z)
| VList (l : list Value)
| VDict (d : gmap string Value).

(** [list] of [str] as a value. *)
Definition VStrs (l : list string) : Value := VList (VStr <$> l).

(** *** [repr] *)

Definition hex_digit (n : N) : ascii :=
  ascii_of_N (if (n <? 10)%N then 48 + n else 87 + n).

Definition dquote : ascii := ascii_of_N 34.

(** [repr] picks double quotes exactly when the string has a single quote and
    no double quote. *)
Definition repr_quote (s : string) : ascii :=
  if contains "'" s && negb (contains (String dquote "") s) then dquote else "'"%char.

Definition repr_char (quote c : ascii) : string :=
  if Ascii.eqb c quote || Ascii.eqb c "\"%char then String "\"%char (String c "")
  else if Ascii.eqb c "009"%char then "\t"
  else if Ascii.eqb c "010"%char then "\n"
  else if Ascii.eqb c "013"%char then "\r"
  else if (code c <? 32)%N || ((127 <=? code c)%N && (code c <=? 160)%N)
          || (code c =? 173)%N
       then String "\"%char (String "x"%char
              (String (hex_digit (code c / 16)) (String (hex_digit (code c mod 16)) "")))
  else String c "".

Fixpoint repr_body (quote : ascii) (s : string) : string :=
  match s with
  | EmptyString => EmptyString
  | String c s' => repr_char quote c +:+ repr_body quote s'
  end.

(** [repr(s)] for a string. *)
Definition repr_str (s : string) : string :=
  let q := repr_quote s in
  String q (repr_body q s +:+ String q "").

(** [repr(l)] for a list of strings, as an f-string renders it. *)
Definition repr_list (l : list string) : string :=
  "[" +:+ join ", " (map repr_str l) +:+ "]".

End Py.

Import Py.

(** ** [app/utils/ga4_validation.py] *)
Module ga4_validation.

Definition ALLOWED_METRICS : gset string :=
  {[ "sessions"; "totalUsers"; "screenPageViews"; "activeUsers"; "newUsers";
     "bounceRate"; "averageSessionDuration"; "conversions"; "eventCount";
     "engagementRate" ]}.

Definition ALLOWED_DIMENSIONS : gset string :=
  {[ "date"; "pagePath"; "pageTitle"; "sessionSource"; "sessionMedium";
     "sessionCampaign"; "country"; "city"; "deviceCategory";
     "operatingSystem"; "browser"; "eventName"; "landingPage" ]}.

(** A query plan: the [dict] with keys [metrics], [dimensions], [date_range]
    and [filters], each of which may be absent. *)
Record Plan : Type := {
  metrics : option (list string);
  dimensions : option (list string);
  date_range : option string;
  filters : option (list (string * string))
}.

(** The [dict] that [validate_plan] returns. *)
Record Validation : Type := {
  valid : bool;
  metrics_count : nat;
  dimensions_count : nat;
  validated_at : string
}.

Definition validate_metrics (metrics : list string) : bool * list string :=
  let invalid_metrics := filter (fun m => m ∉ ALLOWED_METRICS) metrics in
  (Nat.eqb (length invalid_metrics) 0, invalid_metrics).

Definition validate_dimensions (dimensions : list string) : bool * list string :=
  let invalid_dimensions := filter (fun d => d ∉ ALLOWED_DIMENSIONS) dimensions in
  (Nat.eqb (length invalid_dimensions) 0, invalid_dimensions).

(** The list [errors] just before [if errors: raise ...]. *)
Definition plan_errors (plan : Plan) : list string :=
  let errors := [] in
  let errors :=
    match metrics plan with
    | Some ms =>
        let '(is_valid, invalid_metrics) := validate_metrics ms in
        if negb is_valid
        then errors ++ ["Invalid metrics: " +:+ repr_list invalid_metrics]
        else errors
    | None => errors
    end in
  let errors :=
    match dimensions plan with
    | Some ds =>
        let '(is_valid, invalid_dimensions) := validate_dimensions ds in
        if negb is_valid
        then errors ++ ["Invalid dimensions: " +:+ repr_list invalid_dimensions]
        else errors
    | None => errors
    end in
  let errors :=
    match metrics plan with
    | None | Some [] => errors ++ ["At least one metric is required"]
    | Some (_ :: _) => errors
    end in
  let errors :=
    match date_range plan with
    | None => errors ++ ["Date range is required"]
    | Some _ => errors
    end in
  errors.

Definition validate_plan (plan : Plan) : result Validation :=
  let errors := plan_errors plan in
  match errors with
  | _ :: _ =>
      Raise (ValueError ("GA4 plan validation failed: " +:+ join "; " errors))
  | [] =>
      Ok {| valid := true;
            metrics_count := length (default [] (metrics plan));
            dimensions_count := length (default [] (dimensions plan));
            validated_at := "ga4_validation.py" |}
  end.

End ga4_validation.

(** ** [app/utils/date_parser.py] *)
Module date_parser.

(** The GA4 [DateRange] message, reduced to the two fields the code sets. *)
Record DateRange : Type := {
  start_date : string;
  end_date : string
}.

(** The regular expression [(\d+)\s*(day|week|month)s?] under [re.search],
    written as the backtracking matcher it denotes.  [\d] is a decimal
    digit; [\s] is one of the characters Python counts as whitespace (the
    no-break space and the next-line control among them). *)
Definition is_space (c : ascii) : bool :=
  ((9 <=? code c)%N && (code c <=? 13)%N) ||
  ((28 <=? code c)%N && (code c <=? 32)%N) ||
  (code c =? 133)%N || (code c =? 160)%N.

(** [(day|week|month)] at the head of [s], alternatives tried in order; the
    trailing [s?] always succeeds and captures nothing. *)
Definition match_unit (s : string) : option string :=
  if String.prefix "day" s then Some "day"
  else if String.prefix "week" s then Some "week"
  else if String.prefix "month" s then Some "month"
  else None.

(** [\s*(day|week|month)s?]: greedy, giving characters back on failure. *)
Fixpoint match_spaces (s : string) : option string :=
  match s with
  | String c s' =>
      if is_space c
      then match match_spaces s' with
           | Some u => Some u
           | None => match_unit s
           end
      else match_unit s
  | EmptyString => match_unit s
  end.

(** The rest of [\d+] once [ds] (at least one digit) has been consumed. *)
Fixpoint match_digits (ds s : string) : option (string * string) :=
  let stop := match match_spaces s with
              | Some u => Some (ds, u)
              | None => None
              end in
  match s with
  | String c s' =>
      if is_digit c
      then match match_digits (ds +:+ String c "") s' with
           | Some r => Some r
           | None => stop
           end
      else stop
  | EmptyString => stop
  end.

(** A match that starts at the head of [s]: groups 1 and 2. *)
Definition match_here (s : string) : option (string * string) :=
  match s with
  | String c s' => if is_digit c then match_digits (String c "") s' else None
  | EmptyString => None
  end.

(** [re.search]: the leftmost position at which the pattern matches. *)
Fixpoint re_search (s : string) : option (string * string) :=
  match match_here s with
  | Some r => Some r
  | None =>
      match s with
      | String _ s' => re_search s'
      | EmptyString => None
      end
  end.

(** What the pattern matches, stated on its own: a string in which a
    non-empty run of digits is followed by any run of whitespace and then by
    [day], [week] or [month]. *)
Fixpoint all_chars (p : ascii -> bool) (s : string) : bool :=
  match s with
  | EmptyString => true
  | String c s' => p c && all_chars p s'
  end.


(** The labels of the predefined ranges. *)
Definition predefined_labels : list string :=
  [ "last_7_days"; "last_week"; "past_7_days";
    "last_14_days"; "past_14_days"; "two_weeks";
    "last_30_days"; "last_month"; "past_30_days";
    "last_90_days"; "last_quarter"; "past_90_days";
    "last_year"; "past_year"; "last_365_days";
    "yesterday"; "today"; "current_day" ].

(** [date_label.lower().replace(" ", "_")] *)
Definition normalize (date_label : string) : string :=
  replace_char " " "_" (lower date_label).

(** The predefined ranges: the chain of [if label in [...]] tests. *)
Definition predefined (label : string) : option DateRange :=
  if bool_decide (label ∈ ["last_7_days"; "last_week"; "past_7_days"])
  then Some {| start_date := "7daysAgo"; end_date := "today" |}
  else if bool_decide (label ∈ ["last_14_days"; "past_14_days"; "two_weeks"])
  then Some {| start_date := "14daysAgo"; end_date := "today" |}
  else if bool_decide (label ∈ ["last_30_days"; "last_month"; "past_30_days"])
  then Some {| start_date := "30daysAgo"; end_date := "today" |}
  else if bool_decide (label ∈ ["last_90_days"; "last_quarter"; "past_90_days"])
  then Some {| start_date := "90daysAgo"; end_date := "today" |}
  else if bool_decide (label ∈ ["last_year"; "past_year"; "last_365_days"])
  then Some {| start_date := "365daysAgo"; end_date := "today" |}
  else if bool_decide (label ∈ ["yesterday"])
  then Some {| start_date := "yesterday"; end_date := "yesterday" |}
  else if bool_decide (label ∈ ["today"; "current_day"])
  then Some {| start_date := "today"; end_date := "today" |}
  else None.

(** [parse_date_range].  Its two conversions, [int(group 1)] and the
    f-string of the day count, are the only steps that can raise. *)
Definition parse_date_range (date_label : string) : result DateRange :=
  let label := normalize date_label in
  match predefined label with
  | Some r => Ok r
  | None =>
      match re_search label with
      | Some (group1, group2) =>
          bind (int_of_str group1) (fun number =>
          let unit := group2 in
          let days :=
            if String.eqb unit "day" then number
            else if String.eqb unit "week" then (number * 7)%N
            else if String.eqb unit "month" then (number * 30)%N
            else 7%N in
          bind (str_of_int days) (fun text =>
          Ok {| start_date := text +:+ "daysAgo"; end_date := "today" |}))
      | None => Ok {| start_date := "7daysAgo"; end_date := "today" |}
      end
  end.

Definition get_human_readable_range (date_range : DateRange) : string :=
  let start := start_date date_range in
  let end_ := end_date date_range in
  if String.eqb start "7daysAgo" && String.eqb end_ "today" then "Last 7 days"
  else if String.eqb start "14daysAgo" && String.eqb end_ "today" then "Last 14 days"
  else if String.eqb start "30daysAgo" && String.eqb end_ "today" then "Last 30 days"
  else if String.eqb start "yesterday" && String.eqb end_ "yesterday" then "Yesterday"
  else if String.eqb start "today" && String.eqb end_ "today" then "Today"
  else start +:+ " to " +:+ end_.

End date_parser.

(** ** [app/utils/llm.py] *)
Module llm.
Import ga4_validation.

(** What [litellm.completion] followed by [json.loads] delivers: a JSON object
    read as a plan (any of its keys may be missing), or an exception
    ([JSONDecodeError] or any other). *)
Inductive completion : Type :=
| parsed (plan : Plan)
| failed (e : exn).

Definition _fallback_plan (query : string) : Plan :=
  let query_lower := lower query in
  let plan_metrics := ["sessions"] in
  let plan_dimensions := ["date"] in
  let plan_date_range := "last_7_days" in
  let plan_metrics :=
    if any_in ["user"; "visitor"; "audience"] query_lower
    then ["totalUsers"; "activeUsers"] else plan_metrics in
  let plan_metrics :=
    if any_in ["page view"; "pageview"; "views"] query_lower
    then ["screenPageViews"] else plan_metrics in
  let plan_metrics :=
    if any_in ["bounce"; "engagement"] query_lower
    then ["bounceRate"] else plan_metrics in
  let plan_dimensions :=
    if any_in ["page"; "url"; "path"] query_lower
    then if negb (bool_decide ("date" ∈ plan_dimensions))
         then plan_dimensions ++ ["pagePath"]
         else ["date"; "pagePath"]
    else plan_dimensions in
  let plan_dimensions :=
    if any_in ["country"; "location"; "geo"] query_lower
    then plan_dimensions ++ ["country"] else plan_dimensions in
  let plan_dimensions :=
    if any_in ["device"; "mobile"; "desktop"] query_lower
    then plan_dimensions ++ ["deviceCategory"] else plan_dimensions in
  let plan_date_range :=
    if any_in ["yesterday"] query_lower then "yesterday"
    else if any_in ["month"; "30 days"] query_lower then "last_30_days"
    else if any_in ["week"; "14 days"] query_lower then "last_14_days"
    else plan_date_range in
  {| metrics := Some plan_metrics;
     dimensions := Some plan_dimensions;
     date_range := Some plan_date_range;
     filters := None |}.

Definition parse_analytics_query (response : completion) (query : string) : Plan :=
  match response with
  | parsed plan =>
      {| metrics := Some (default ["sessions"] (metrics plan));
         dimensions := Some (default ["date"] (dimensions plan));
         date_range := Some (default "last_7_days" (date_range plan));
         filters := filters plan |}
  | failed _ => _fallback_plan query
  end.

(** The analysis plan of the SEO parser: the [dict] with the keys
    [analysis_type] and [parameters]; the parameters are kept in the order
    the [dict] literal lists them. *)
Record AnalysisPlan : Type := {
  analysis_type : string;
  parameters : list (string * Z)
}.

Definition parse_seo_query (query : string) : AnalysisPlan :=
  let query_lower := lower query in
  if contains "title" query_lower && contains "https" query_lower
  then {| analysis_type := "non_https_long_titles";
          parameters := [("title_length_threshold", 60)] |}
  else if contains "title" query_lower
  then {| analysis_type := "title_analysis";
          parameters := [("length_threshold", 60)] |}
  else if contains "meta" query_lower
  then {| analysis_type := "meta_description_analysis";
          parameters := [("length_threshold", 160)] |}
  else if contains "https" query_lower
  then {| analysis_type := "https_analysis"; parameters := [] |}
  else {| analysis_type := "general_seo_health"; parameters := [] |}.

End llm.

(** ** [app/agents/seo_agent.py] *)
Module seo_agent.

(** The dtype of a column.  [pd.read_csv] gives [object] to a column with
    text in it (its cells are strings, or NaN where the file has nothing),
    and a numeric or boolean dtype to a column without text: [float64] in
    particular to a column in which every cell is empty. *)
Inductive dtype : Type := object | int64 | float64 | bool_.

#[global] Instance dtype_eq_dec : EqDecision dtype.
Proof. solve_decision. Defined.

(** One row of the audit table.  In a column of dtype [object] a cell is a
    string or is missing ([None], NaN).  In ["Address"], ["Title 1"] or
    ["Meta Description 1"] of another dtype a cell is missing or holds a
    value that is not a string, kept as [Some] of its text, which is not
    empty: the code reads of such a cell only whether it is missing.
    ["Status Code"] holds an integer or NaN. *)
Record Row : Type := {
  Address : option string;
  Title_1 : option string;
  Meta_Description_1 : option string;
  Status_Code : option Z
}.

(** The loaded table [self.df]: the names of its columns, their dtypes and
    its rows.  The cell of a row in a column the table does not have is
    never read, nor is the dtype of such a column. *)
Record DataFrame : Type := {
  columns : list string;
  dtypes : string -> dtype;
  rows : list Row
}.

(** [df[name]]: a column that is not there raises [KeyError]. *)
Definition getitem_column (df : DataFrame) (name : string) : result unit :=
  if bool_decide (name ∈ columns df) then Ok tt
  else Raise (KeyError (repr_str name)).

(** [df[name].str], once [df[name]] is there: the accessor exists for
    string values only, and asking for it on a column of another dtype
    raises [AttributeError] (the text is that of pandas 1 and 2). *)
Definition str_accessor_message : string :=
  "Can only use .str accessor with string values!".

Definition str_accessor (df : DataFrame) (name : string) : result unit :=
  match dtypes df name with
  | object => Ok tt
  | _ => Raise (AttributeError str_accessor_message)
  end.

(** [df["Address"].str.startswith(p, na=False)], row by row. *)
Definition address_startswith (p : string) (r : Row) : bool :=
  match Address r with
  | Some a => startswith p a
  | None => false
  end.

(** [col.isna() | (col == "")] *)
Definition isna_or_empty (cell : option string) : bool :=
  match cell with
  | Some s => String.eqb s ""
  | None => true
  end.

(** [col.str.len() > n]; the length of a missing cell is NaN, and
    [NaN > n] is false. *)
Definition str_len_gt (n : nat) (cell : option string) : bool :=
  match cell with
  | Some s => Nat.ltb n (String.length s)
  | None => false
  end.

(** [col != 200]; [NaN != 200] is true. *)
Definition status_not_200 (cell : option Z) : bool :=
  match cell with
  | Some code => negb (code =? 200)
  | None => true
  end.

(** [len(df[mask])] *)
Definition count (mask : Row -> bool) (df : DataFrame) : nat :=
  length (List.filter mask (rows df)).

(** The non-HTTPS mask of [analyze_non_https_long_titles]:
    [~df["Address"].str.startswith("https://", na=False)]. *)
Definition non_https (r : Row) : bool := negb (address_startswith "https://" r).

(** The [dict] of a health report, without its two constant entries
    ([analysis_type] and [recommendations]). *)
Record HealthReport : Type := {
  summary : string;
  health_score : Z;
  total_pages_analyzed : nat;
  issues_found : nat;
  issues : list string
}.

(** What [general_seo_health] returns: the report, or the [dict] with the
    single key [error] of its [except] clause. *)
Inductive HealthResult : Type :=
| health_report (r : HealthReport)
| health_error (error : string).

(** One check of the health score: [if n > 0: health_score -= weight;
    issues.append(text)]. *)
Definition deduct (n : nat) (weight : Z) (text : string) (state : Z * list string)
  : Z * list string :=
  let '(health_score, issues) := state in
  if Nat.ltb 0 n
  then (health_score - weight, issues ++ [pretty n +:+ text])
  else (health_score, issues).

Definition general_seo_health (df : DataFrame) : HealthResult :=
  let body :=
    let state := (100, []) in
    bind (getitem_column df "Address") (fun _ =>
    bind (str_accessor df "Address") (fun _ =>
    let http_urls := count (address_startswith "http://") df in
    let state := deduct http_urls 20 " pages not using HTTPS" state in
    bind (getitem_column df "Title 1") (fun _ =>
    let missing_titles := count (fun r => isna_or_empty (Title_1 r)) df in
    let state := deduct missing_titles 15 " pages missing titles" state in
    bind (str_accessor df "Title 1") (fun _ =>
    let long_titles := count (fun r => str_len_gt 60 (Title_1 r)) df in
    let state := deduct long_titles 10 " pages have titles over 60 characters" state in
    bind (getitem_column df "Meta Description 1") (fun _ =>
    let missing_meta := count (fun r => isna_or_empty (Meta_Description_1 r)) df in
    let state := deduct missing_meta 10 " pages missing meta descriptions" state in
    let state :=
      if bool_decide ("Status Code" ∈ columns df)
      then
        let error_pages := count (fun r => status_not_200 (Status_Code r)) df in
        deduct error_pages 15 " pages returning error status codes" state
      else state in
    let '(health_score, issues) := state in
    let health_score := Z.max 0 health_score in
    Ok {| summary := "SEO Health Score: " +:+ pretty health_score +:+ "/100";
          health_score := health_score;
          total_pages_analyzed := length (rows df);
          issues_found := length issues;
          issues := issues |}))))) in
  match body with
  | Ok report => health_report report
  | Raise e => health_error ("SEO health check failed: " +:+ str_of_exn e)
  end.

(** [_create_sample_data]: the table used when no CSV file is found.  Its
    columns are lists of strings, but for the status codes. *)
Definition sample_row (address title meta : string) (status : Z) : Row :=
  {| Address := Some address; Title_1 := Some title;
     Meta_Description_1 := Some meta; Status_Code := Some status |}.

Definition sample_columns : list string :=
  ["Address"; "Title 1"; "Meta Description 1"; "Status Code"; "Content Type"].

Definition sample_dtypes (name : string) : dtype :=
  if String.eqb name "Status Code" then int64 else object.

Definition _create_sample_data : DataFrame :=
  {| columns := sample_columns;
     dtypes := sample_dtypes;
     rows := [
       sample_row "http://example.com/"
         "Example Website - Your trusted partner for digital solutions and services"
         "Welcome to Example.com - providing quality services since 2020" 200;
       sample_row "https://example.com/about"
         "About Us - Example Company"
         "Learn more about our company history and mission" 200;
       sample_row "http://example.com/contact"
         "Contact Us Today for More Information About Our Services"
         "" 200;
       sample_row "https://example.com/services"
         "Our Services"
         "Comprehensive services for your business needs" 200;
       sample_row "http://example.com/blog/post-1"
         "Blog Post 1 - Detailed analysis of modern web development trends and best practices"
         "Read our latest insights on web development" 404 ] |}.

(** *** The other analyses *)

(** [col.str.len() > threshold] for an integer threshold; the length of a
    missing cell is NaN, and [NaN > n] is false.  The thresholds of the
    three analyses are read as integers of machine size, which is what
    [run] passes (60 or 160): the comparison with a column of lengths and
    the f-strings that show the threshold are modelled for such a value. *)
Definition str_len_above (threshold : Z) (cell : option string) : bool :=
  match cell with
  | Some s => threshold <? Z.of_nat (String.length s)
  | None => false
  end.

(** [col.str.len() < n] *)
Definition str_len_lt (n : nat) (cell : option string) : bool :=
  match cell with
  | Some s => Nat.ltb (String.length s) n
  | None => false
  end.

(** [row.get("Address", "")]: the cell of the row ([None] for NaN), or the
    default when the table has no such column. *)
Definition row_get_address (df : DataFrame) (r : Row) : option string :=
  if bool_decide ("Address" ∈ columns df) then Address r else Some "".

(** [str(cell)]: the text of a cell, a missing one reading [nan]. *)
Definition str_of_cell (cell : option string) : string :=
  match cell with
  | Some s => s
  | None => "nan"
  end.

(** [s[:100] + "..."] *)
Definition excerpt (s : string) : string := String.substring 0 100 s +:+ "...".

(** One entry of [findings] in [analyze_non_https_long_titles]: the keys
    [url], [title], [title_length] and [issues]. *)
Record Finding : Type := {
  finding_url : option string;
  finding_title : string;
  finding_title_length : nat;
  finding_issues : list string
}.

(** What [analyze_non_https_long_titles] returns: the report (without its
    constant [analysis_type]), or the [dict] of its [except KeyError]
    clause. *)
Inductive FindingsResult : Type :=
| findings_report (summary : string) (total_issues : nat) (findings : list Finding)
    (recommendations : list string)
| findings_error (error : string) (available_columns : list string).

(** The body of the loop over [df[non_https & long_titles]], for one row of
    the table: a row outside the mask gives nothing.  A row inside it has a
    title, since the length of a missing title compares false. *)
Definition long_title_finding (title_length_threshold : Z) (r : Row) : option Finding :=
  match Title_1 r with
  | Some title =>
      if non_https r && str_len_above title_length_threshold (Some title)
      then Some {| finding_url := Address r;
                   finding_title :=
                     if Nat.ltb 100 (String.length title) then excerpt title else title;
                   finding_title_length := String.length title;
                   finding_issues :=
                     [ "Non-HTTPS URL";
                       "Title exceeds " +:+ pretty title_length_threshold
                         +:+ " characters" ] |}
      else None
  | None => None
  end.

Definition analyze_non_https_long_titles (df : DataFrame) (title_length_threshold : Z)
  : result FindingsResult :=
  let body :=
    bind (getitem_column df "Address") (fun _ =>
    bind (str_accessor df "Address") (fun _ =>
    bind (getitem_column df "Title 1") (fun _ =>
    bind (str_accessor df "Title 1") (fun _ =>
    let findings := omap (long_title_finding title_length_threshold) (rows df) in
    Ok (findings_report
          ("Found " +:+ pretty (length findings)
             +:+ " pages with non-HTTPS URLs and long titles")
          (length findings)
          findings
          [ "Migrate all URLs to HTTPS for better security and SEO";
            "Optimize page titles to be under " +:+ pretty title_length_threshold
              +:+ " characters";
            "Ensure titles are descriptive but concise";
            "Implement proper SSL certificates across the domain" ]))))) in
  match body with
  | Ok report => Ok report
  | Raise (KeyError msg) =>
      Ok (findings_error ("Required column not found in SEO data: " +:+ msg) (columns df))
  | Raise e => Raise e
  end.

(** One entry of [issues] in [analyze_titles] and
    [analyze_meta_descriptions]: the keys [url], [issue] and
    [recommendation], and for a long text also the text cut to 100
    characters (key [title] or [meta_description]) and its [length]. *)
Record Issue : Type := {
  issue_url : option string;
  issue_text : option string;
  issue_length : option nat;
  issue : string;
  recommendation : string
}.

(** [statistics] of [analyze_titles]. *)
Record TitleStatistics : Type := {
  missing_titles : nat;
  long_titles : nat;
  short_titles : nat;
  total_pages : nat
}.

Inductive TitlesResult : Type :=
| titles_report (summary : string) (statistics : TitleStatistics) (issues : list Issue)
    (recommendations : list string)
| titles_error (error : string).

Definition analyze_titles (df : DataFrame) (length_threshold : Z) : TitlesResult :=
  let body :=
    bind (getitem_column df "Title 1") (fun _ =>
    let missing_titles := List.filter (fun r => isna_or_empty (Title_1 r)) (rows df) in
    bind (str_accessor df "Title 1") (fun _ =>
    let long_titles :=
      List.filter (fun r => str_len_above length_threshold (Title_1 r)) (rows df) in
    let short_titles := List.filter (fun r => str_len_lt 30 (Title_1 r)) (rows df) in
    let findings :=
      {| missing_titles := length missing_titles;
         long_titles := length long_titles;
         short_titles := length short_titles;
         total_pages := length (rows df) |} in
    let issues := [] in
    let issues :=
      if Nat.ltb 0 (length missing_titles)
      then issues ++
           map (fun row =>
                  {| issue_url := row_get_address df row;
                     issue_text := None;
                     issue_length := None;
                     issue := "Missing title tag";
                     recommendation := "Add descriptive title tag" |})
               (take 5 missing_titles)
      else issues in
    let issues :=
      if Nat.ltb 0 (length long_titles)
      then issues ++
           map (fun row =>
                  let title := str_of_cell (Title_1 row) in
                  {| issue_url := row_get_address df row;
                     issue_text := Some (excerpt title);
                     issue_length := Some (String.length title);
                     issue := "Title exceeds " +:+ pretty length_threshold
                                +:+ " characters";
                     recommendation :=
                       "Shorten title while maintaining descriptiveness" |})
               (take 5 long_titles)
      else issues in
    Ok (titles_report
          ("Title analysis complete. Found " +:+ pretty (length issues)
             +:+ " issues across " +:+ pretty (length (rows df)) +:+ " pages.")
          findings
          issues
          [ "Ensure all pages have unique, descriptive titles";
            "Keep titles between 30-" +:+ pretty length_threshold +:+ " characters";
            "Include target keywords naturally in titles";
            "Avoid duplicate titles across pages" ]))) in
  match body with
  | Ok report => report
  | Raise e => titles_error ("Title analysis failed: " +:+ str_of_exn e)
  end.

(** [statistics] of [analyze_meta_descriptions]. *)
Record MetaStatistics : Type := {
  missing_meta_descriptions : nat;
  long_meta_descriptions : nat;
  meta_total_pages : nat
}.

Inductive MetaResult : Type :=
| meta_report (summary : string) (statistics : MetaStatistics) (issues : list Issue)
    (recommendations : list string)
| meta_error (error : string).

Definition analyze_meta_descriptions (df : DataFrame) (length_threshold : Z) : MetaResult :=
  let body :=
    bind (getitem_column df "Meta Description 1") (fun _ =>
    let missing_meta :=
      List.filter (fun r => isna_or_empty (Meta_Description_1 r)) (rows df) in
    bind (str_accessor df "Meta Description 1") (fun _ =>
    let long_meta :=
      List.filter (fun r => str_len_above length_threshold (Meta_Description_1 r))
                  (rows df) in
    let issues := [] in
    let issues :=
      issues ++
      map (fun row =>
             {| issue_url := row_get_address df row;
                issue_text := None;
                issue_length := None;
                issue := "Missing meta description";
                recommendation :=
                  "Add compelling meta description to improve click-through rates" |})
          (take 10 missing_meta) in
    let issues :=
      issues ++
      map (fun row =>
             let meta := str_of_cell (Meta_Description_1 row) in
             {| issue_url := row_get_address df row;
                issue_text := Some (excerpt meta);
                issue_length := Some (String.length meta);
                issue := "Meta description exceeds " +:+ pretty length_threshold
                           +:+ " characters";
                recommendation :=
                  "Shorten meta description to avoid truncation in search results" |})
          (take 10 long_meta) in
    Ok (meta_report
          ("Meta description analysis: " +:+ pretty (length missing_meta)
             +:+ " missing, " +:+ pretty (length long_meta) +:+ " too long")
          {| missing_meta_descriptions := length missing_meta;
             long_meta_descriptions := length long_meta;
             meta_total_pages := length (rows df) |}
          issues
          [ "Keep meta descriptions under " +:+ pretty length_threshold +:+ " characters";
            "Write compelling, action-oriented descriptions";
            "Include target keywords naturally";
            "Make each meta description unique and relevant to page content" ]))) in
  match body with
  | Ok report => report
  | Raise e => meta_error ("Meta description analysis failed: " +:+ str_of_exn e)
  end.

(** *** [run] *)

(** Calling a method with [**parameters] (a [dict], so each key occurs
    once): a key that is not one of the method's parameters raises
    [TypeError]; a parameter that is not given keeps its default. *)
Fixpoint unexpected_keyword (names : list string) (parameters : list (string * Z))
  : option string :=
  match parameters with
  | [] => None
  | (k, _) :: rest =>
      if bool_decide (k ∈ names) then unexpected_keyword names rest else Some k
  end.

Fixpoint keyword (name : string) (default_value : Z) (parameters : list (string * Z)) : Z :=
  match parameters with
  | [] => default_value
  | (k, v) :: rest =>
      if String.eqb k name then v else keyword name default_value rest
  end.

Definition call_with_keywords {A} (method : string) (names : list string)
    (parameters : list (string * Z)) (call : result A) : result A :=
  match unexpected_keyword names parameters with
  | Some k =>
      Raise (OtherException
               ("SEOAgent." +:+ method +:+ "() got an unexpected keyword argument "
                  +:+ repr_str k))
  | None => call
  end.

Section run.

(** The five analysis methods as [run] sees them: each returns a [dict] or
    raises. *)
Variable non_https_long_titles_analysis : Z -> result (gmap string Value).
Variable titles_analysis : Z -> result (gmap string Value).
Variable meta_descriptions_analysis : Z -> result (gmap string Value).
Variable https_usage_analysis : result (gmap string Value).
Variable seo_health_analysis : result (gmap string Value).

Definition run (query : string) : gmap string Value :=
  let body :=
    let analysis_plan := llm.parse_seo_query query in
    let analysis_type := llm.analysis_type analysis_plan in
    let parameters := llm.parameters analysis_plan in
    bind
      (if String.eqb analysis_type "non_https_long_titles"
       then call_with_keywords "analyze_non_https_long_titles"
              ["title_length_threshold"] parameters
              (non_https_long_titles_analysis
                 (keyword "title_length_threshold" 60 parameters))
       else if String.eqb analysis_type "title_analysis"
       then call_with_keywords "analyze_titles" ["length_threshold"] parameters
              (titles_analysis (keyword "length_threshold" 60 parameters))
       else if String.eqb analysis_type "meta_description_analysis"
       then call_with_keywords "analyze_meta_descriptions" ["length_threshold"] parameters
              (meta_descriptions_analysis (keyword "length_threshold" 160 parameters))
       else if String.eqb analysis_type "https_analysis"
       then call_with_keywords "analyze_https_usage" [] parameters https_usage_analysis
       else call_with_keywords "general_seo_health" [] parameters seo_health_analysis)
      (fun result =>
         Ok (<[ "analysis_type" := VStr analysis_type ]>
             (<[ "query" := VStr query ]> result))) in
  match body with
  | Ok result => result
  | Raise e =>
      <[ "error" := VStr ("SEO analysis failed: " +:+ str_of_exn e) ]>
      (<[ "query" := VStr query ]> ∅)
  end.

End run.

End seo_agent.

(** ** [app/agents/ga4_agent.py] *)
Module ga4_agent.
Import ga4_validation date_parser llm.

(** The names bound at module level in [ga4_agent.py]: its imports and the
    class it defines. *)
Definition module_globals : list string :=
  [ "BetaAnalyticsDataClient"; "RunReportRequest"; "Dimension"; "Metric";
    "os"; "time"; "Dict"; "Any";
    "validate_plan"; "ALLOWED_METRICS"; "ALLOWED_DIMENSIONS";
    "parse_date_range"; "get_human_readable_range"; "parse_analytics_query";
    "log_ga4_query"; "log_agent_call"; "log_error"; "log_performance";
    "GA4Agent" ].

(** Evaluating a global name inside a method: it is looked up in the module's
    globals (none of the names used below is a built-in), and a name that is
    bound nowhere raises [NameError]. *)
Definition load_global (name : string) : result unit :=
  if bool_decide (name ∈ module_globals) then Ok tt
  else Raise (NameError ("name '" +:+ name +:+ "' is not defined")).

(** [d[key]] on a plan. *)
Definition getitem {A} (field : option A) (key : string) : result A :=
  match field with
  | Some a => Ok a
  | None => Raise (KeyError (repr_str key))
  end.

(** A row of a report: the [.value] of each dimension and metric value. *)
Record ReportRow : Type := {
  dimension_values : list string;
  metric_values : list string
}.

(** The response of a report call, real or mock. *)
Record Report : Type := {
  report_rows : list ReportRow
}.

Record RunReportRequest : Type := {
  property : string;
  request_dimensions : list string;
  request_metrics : list string;
  date_ranges : list DateRange
}.

(** Threading a state through a [for] loop that collects one value per item. *)
Fixpoint for_each {A B S} (f : A -> S -> B * S) (l : list A) (s : S) : list B * S :=
  match l with
  | [] => ([], s)
  | a :: l' =>
      let '(b, s1) := f a s in
      let '(bs, s2) := for_each f l' s1 in
      (b :: bs, s2)
  end.

(** [{names[i]: value for i, value in enumerate(values)}]: a later entry
    overwrites an earlier one with the same name, and a value past the end of
    [names] raises [IndexError]. *)
Fixpoint dict_by_position (names values : list string) (acc : gmap string Value)
  : result (gmap string Value) :=
  match values with
  | [] => Ok acc
  | v :: values' =>
      match names with
      | n :: names' => dict_by_position names' values' (<[n := VStr v]> acc)
      | [] => Raise (IndexError "list index out of range")
      end
  end.

(** [all the rows formatted, or the first exception]. *)
Fixpoint collect {A} (l : list (result A)) : result (list A) :=
  match l with
  | [] => Ok []
  | r :: l' => bind r (fun a => bind (collect l') (fun rest => Ok (a :: rest)))
  end.

Section agent.

(** The reporting client, the backend call, and the sources of the mock data:
    the random generator ([random.randint], [random.choice]) and the clock
    ([(datetime.now() - timedelta(days=k)).strftime('%Y%m%d')]). *)
Context {Client Rng : Type}.
Variable run_report : Client -> RunReportRequest -> result Report.
Variable randint : Z -> Z -> Rng -> Z * Rng.
Variable choice : list string -> Rng -> string * Rng.
Variable strftime_days_ago : nat -> string.

(** The attributes [__init__] sets on the agent. *)
Record GA4Agent : Type := {
  client : option Client;
  credentials_valid : bool
}.

(** [__init__].  [credentials_file] is [None] when [credentials.json] does not
    exist, and otherwise what [from_service_account_file] does with it. *)
Definition init (credentials_file : option (result Client)) : result GA4Agent :=
  match credentials_file with
  | None =>
      bind (load_global "logger") (fun _ =>
      Ok {| client := None; credentials_valid := false |})
  | Some (Ok c) => Ok {| client := Some c; credentials_valid := true |}
  | Some (Raise e) =>
      bind (load_global "logger") (fun _ =>
      Ok {| client := None; credentials_valid := false |})
  end.

Definition mock_dimension_value (date dim : string) (g : Rng) : string * Rng :=
  if String.eqb dim "date" then (date, g)
  else if String.eqb dim "pagePath"
  then choice ["/"; "/about"; "/contact"; "/products"; "/blog"] g
  else ("demo_value", g).

Definition mock_metric_value (metric : string) (g : Rng) : string * Rng :=
  let '(value, g) :=
    if String.eqb metric "sessions" then randint 50 500 g
    else if String.eqb metric "totalUsers" then randint 40 400 g
    else if String.eqb metric "screenPageViews" then randint 100 800 g
    else randint 10 100 g in
  (pretty value, g).

(** [MockResponse.__init__]: one row per [i in range(7)]. *)
Definition MockResponse (plan_dimensions plan_metrics : list string) (g : Rng)
  : Report * Rng :=
  let '(rows, g) :=
    for_each (fun i g =>
      let date := strftime_days_ago (6 - i) in
      let '(row_data, g) := for_each (mock_dimension_value date) plan_dimensions g in
      let '(metric_data, g) := for_each mock_metric_value plan_metrics g in
      ({| dimension_values := row_data; metric_values := metric_data |}, g))
      (seq 0 7) g in
  ({| report_rows := rows |}, g).

(** [_get_demo_data]: the classes are defined, then [logger.info] is called,
    then [MockResponse()] is built and returned. *)
Definition _get_demo_data (plan : Plan) (g : Rng) : result Report :=
  bind (load_global "logger") (fun _ =>
  bind (getitem (dimensions plan) "dimensions") (fun ds =>
  bind (getitem (metrics plan) "metrics") (fun ms =>
  Ok (fst (MockResponse ds ms g))))).

Definition _execute_ga4_request (self : GA4Agent) (plan : Plan) (property_id : string)
    (g : Rng) : result Report :=
  match credentials_valid self, client self with
  | true, Some c =>
      bind (getitem (dimensions plan) "dimensions") (fun ds =>
      bind (getitem (metrics plan) "metrics") (fun ms =>
      bind (getitem (date_range plan) "date_range") (fun dr =>
      bind (parse_date_range dr) (fun range =>
      let request :=
        {| property := "properties/" +:+ property_id;
           request_dimensions := ds;
           request_metrics := ms;
           date_ranges := [range] |} in
      run_report c request))))
  | _, _ =>
      bind (load_global "logger") (fun _ =>
      _get_demo_data plan g)
  end.

Definition format_row (ds ms : list string) (row : ReportRow) : result Value :=
  bind (dict_by_position ds (dimension_values row) ∅) (fun dims =>
  bind (dict_by_position ms (metric_values row) ∅) (fun mets =>
  Ok (VDict {[ "dimensions" := VDict dims; "metrics" := VDict mets ]}))).

Definition _format_response (response : Report) (plan : Plan) (original_query : string)
  : result (gmap string Value) :=
  bind (getitem (dimensions plan) "dimensions") (fun ds =>
  bind (getitem (metrics plan) "metrics") (fun ms =>
  bind (collect (format_row ds ms <$> report_rows response)) (fun rows =>
  bind (getitem (date_range plan) "date_range") (fun dr =>
  bind (parse_date_range dr) (fun range =>
  let date_range_str := get_human_readable_range range in
  let summary :=
    "GA4 analytics report for " +:+ date_range_str +:+ ". " +:+
    "Retrieved " +:+ pretty (length rows) +:+ " data points for " +:+
    join ", " ms +:+ " metrics." in
  Ok (<[ "summary" := VStr summary ]>
     (<[ "query" := VStr original_query ]>
     (<[ "metrics" := VStrs ms ]>
     (<[ "dimensions" := VStrs ds ]>
     (<[ "date_range" := VStr date_range_str ]>
     (<[ "rows" := VList rows ]>
     (<[ "total_rows" := VInt (Z.of_nat (length rows)) ]> ∅)))))))))))).

Definition _empty_data_response (plan : Plan) (property_id : string)
  : result (gmap string Value) :=
  bind (getitem (date_range plan) "date_range") (fun dr =>
  bind (parse_date_range dr) (fun range =>
  let date_range_str := get_human_readable_range range in
  bind (getitem (metrics plan) "metrics") (fun ms =>
  bind (getitem (dimensions plan) "dimensions") (fun ds =>
  Ok (<[ "summary" := VStr ("No data available for the selected period ("
                            +:+ date_range_str +:+ ").") ]>
     (<[ "message" := VStr "This could be due to:" ]>
     (<[ "possible_reasons" := VStrs
           [ "No traffic during the selected time period";
             "Data processing delay (GA4 data can be delayed up to 24-48 hours)";
             "Property ID may not have data for the requested metrics";
             "Filters may be too restrictive" ] ]>
     (<[ "suggestions" := VStrs
           [ "Try a different date range (e.g., last 30 days)";
             "Check if the property ID is correct";
             "Verify the website has tracking implemented" ] ]>
     (<[ "metrics" := VStrs ms ]>
     (<[ "dimensions" := VStrs ds ]>
     (<[ "date_range" := VStr date_range_str ]>
     (<[ "property_id" := VStr property_id ]>
     (<[ "rows" := VList [] ]> ∅))))))))))))).

(** The two [except] clauses of [run]. *)
Definition validation_error (e : exn) (query property_id : string) : gmap string Value :=
  <[ "error" := VStr ("Query validation failed: " +:+ str_of_exn e) ]>
  (<[ "query" := VStr query ]>
  (<[ "property_id" := VStr property_id ]>
  (<[ "allowed_metrics" := VStrs (elements ALLOWED_METRICS) ]>
  (<[ "allowed_dimensions" := VStrs (elements ALLOWED_DIMENSIONS) ]> ∅)))).

Definition processing_error (e : exn) (query property_id : string) : gmap string Value :=
  <[ "error" := VStr ("Analytics processing failed: " +:+ str_of_exn e) ]>
  (<[ "query" := VStr query ]>
  (<[ "property_id" := VStr property_id ]> ∅)).

(** [run].  [response] is what the language model's completion delivers for
    this query, [g] the state of the random generator. *)
Definition run (self : GA4Agent) (response : completion) (g : Rng)
    (query property_id : string) : gmap string Value :=
  let body :=
    let plan := parse_analytics_query response query in
    bind (validate_plan plan) (fun _ =>
    bind (_execute_ga4_request self plan property_id g) (fun response =>
    match report_rows response with
    | [] => _empty_data_response plan property_id
    | _ :: _ => _format_response response plan query
    end)) in
  match body with
  | Ok formatted_response => formatted_response
  | Raise (ValueError msg) => validation_error (ValueError msg) query property_id
  | Raise e => processing_error e query property_id
  end.

End agent.

End ga4_agent.

(** ** [app/orchestrator.py] *)
Module orchestrator.

(** [QueryRequest] of [app/schemas/request.py]. *)
Record QueryRequest : Type := {
  query : string;
  propertyId : option string
}.

(** [not req.propertyId]: [None] and the empty string are both falsy. *)
Definition falsy (o : option string) : bool :=
  match o with
  | None => true
  | Some s => String.eqb s ""
  end.

(** A response of an agent: the [dict] it returns. *)
Abbreviation Response := (gmap string Value).

(** The agent invocations made while handling a request, in order. *)
Inductive Call : Type :=
| ga4_agent_run (query property_id : string)
| seo_agent_run (query : string).

Definition _detect_ga4_intent (query : string) : bool :=
  let ga4_keywords :=
    [ "page view"; "pageview"; "users"; "sessions"; "traffic"; "views";
      "bounce rate"; "conversion"; "goal"; "event"; "audience";
      "acquisition"; "behavior"; "demographic"; "geographic";
      "device"; "browser"; "source"; "medium"; "campaign" ] in
  any_in ga4_keywords query.

Definition _detect_seo_intent (query : string) : bool :=
  let seo_keywords :=
    [ "title"; "meta"; "index"; "https"; "seo"; "crawl";
      "heading"; "alt text"; "schema"; "sitemap"; "robot";
      "canonical"; "redirect"; "broken link"; "duplicate";
      "page speed"; "mobile friendly"; "structured data" ] in
  any_in seo_keywords query.

(** [responses] is a [dict] filled in order; it is kept as the list of its
    items, in insertion order (the two keys that can be inserted differ). *)
Fixpoint getitem_responses (responses : list (string * Response)) (key : string)
  : option Response :=
  match responses with
  | [] => None
  | (k, r) :: rest => if String.eqb k key then Some r else getitem_responses rest key
  end.

Definition has_key (key : string) (d : Response) : bool := bool_decide (is_Some (d !! key)).

Definition _generate_combined_insights (responses : list (string * Response))
  : list string :=
  let insights := [] in
  match getitem_responses responses "analytics", getitem_responses responses "seo" with
  | Some analytics, Some seo =>
      let insights :=
        insights ++ ["Cross-referencing traffic data with SEO health indicators"] in
      if negb (has_key "error" analytics) && negb (has_key "error" seo)
      then insights ++ ["Both analytics and SEO data available for comprehensive analysis"]
      else insights
  | _, _ => insights
  end.

Definition _merge_responses (responses : list (string * Response)) (query : string)
  : Response :=
  <[ "query" := VStr query ]>
  (<[ "summary" := VStr "Combined analytics and SEO insights" ]>
  (<[ "insights" := VStrs (_generate_combined_insights responses) ]>
  (<[ "data" := VDict (list_to_map (prod_map id VDict <$> responses)) ]> ∅))).

Definition missing_property_id (req : QueryRequest) : Response :=
  <[ "error" := VStr "propertyId is required for GA4 analytics queries" ]>
  (<[ "query" := VStr (query req) ]> ∅).

Definition no_intent (req : QueryRequest) : Response :=
  <[ "error" := VStr "Could not determine query intent. Please specify analytics or SEO related questions." ]>
  (<[ "query" := VStr (query req) ]>
  (<[ "supported_intents" := VStrs
        [ "Analytics: page views, users, sessions, traffic";
          "SEO: titles, meta tags, indexing, HTTPS status" ] ]> ∅)).

Definition error_response (prefix : string) (e : exn) : Response :=
  {[ "error" := VStr (prefix +:+ str_of_exn e) ]}.

Section handle.

(** The two agents held by the orchestrator.  Within one call of [handle]
    each agent runs at most once, so what it does on that run (return a
    [dict] or raise) is a function of the arguments it is given. *)
Variable ga4_run : string -> string -> result Response.
Variable seo_run : string -> result Response.

(** [handle], together with the agent invocations it makes. *)
Definition handle (req : QueryRequest) : Response * list Call :=
  let query_lower := lower (query req) in
  let needs_ga4 := _detect_ga4_intent query_lower in
  let needs_seo := _detect_seo_intent query_lower in
  let responses : list (string * Response) := [] in
  let calls : list Call := [] in
  if needs_ga4 && falsy (propertyId req)
  then (missing_property_id req, calls)
  else
    let '(responses, calls) :=
      if needs_ga4
      then
        let property_id := default "" (propertyId req) in
        let r := match ga4_run (query req) property_id with
                 | Ok r => r
                 | Raise e => error_response "Analytics processing failed: " e
                 end in
        (responses ++ [("analytics", r)], calls ++ [ga4_agent_run (query req) property_id])
      else (responses, calls) in
    let '(responses, calls) :=
      if needs_seo
      then
        let r := match seo_run (query req) with
                 | Ok r => r
                 | Raise e => error_response "SEO processing failed: " e
                 end in
        (responses ++ [("seo", r)], calls ++ [seo_agent_run (query req)])
      else (responses, calls) in
    match responses with
    | [] => (no_intent req, calls)
    | [(_, r)] => (r, calls)
    | _ :: _ :: _ => (_merge_responses responses (query req), calls)
    end.

End handle.

End orchestrator.

(** * Properties *)

(** Case analysis on a membership [H : x ∈ [a; b; ...]] in a literal list. *)
Ltac elem_cases H :=
  rewrite ?elem_of_app, ?elem_of_cons, ?elem_of_nil in H;
  destruct_or!; try done; subst.

(** ** Strings *)
Section strings.

Lemma append_cons (c : ascii) (s t : string) : String c s +:+ t = String c (s +:+ t).
Proof. reflexivity. Qed.

Lemma append_nil_r (s : string) : s +:+ "" = s.
Proof. induction s as [|c s IH]; [done|]. by rewrite append_cons, IH. Qed.

Lemma append_assoc (s t u : string) : (s +:+ t) +:+ u = s +:+ (t +:+ u).
Proof. induction s as [|c s IH]; [done|]. by rewrite !append_cons, IH. Qed.

Lemma prefix_iff (p s : string) :
  String.prefix p s = true <-> exists post, s = p +:+ post.
Proof.
  revert s. induction p as [|a p IH]; intros s.
  - split; [intros _; by exists s|intros _; by destruct s].
  - destruct s as [|b s]; simpl.
    + split; [done|intros [post H]; discriminate H].
    + destruct (ascii_dec a b) as [->|Hab].
      * rewrite IH. split; intros [post H]; exists post.
        -- by rewrite append_cons, <- H.
        -- rewrite append_cons in H. by injection H.
      * split; [done|]. intros [post H]. rewrite append_cons in H.
        injection H as H1 _. by destruct Hab.
Qed.

(** [sub in s] holds exactly when [sub] occurs in [s]. *)
Lemma contains_iff (sub s : string) :
  contains sub s = true <-> exists pre post, s = pre +:+ sub +:+ post.
Proof.
  induction s as [|c s IH].
  - change (contains sub "") with (String.prefix sub "" || false).
    rewrite orb_false_r, prefix_iff. split.
    + intros [post H]. by exists "", post.
    + intros [[|c pre] [post H]]; [by exists post|discriminate H].
  - change (contains sub (String c s))
      with (String.prefix sub (String c s) || contains sub s).
    rewrite orb_true_iff, prefix_iff, IH. split.
    + intros [[post H]|(pre & post & H)].
      * by exists "", post.
      * exists (String c pre), post. by rewrite append_cons, <- H.
    + intros ([|c' pre] & post & H).
      * left. by exists post.
      * right. rewrite append_cons in H. injection H as _ H. by exists pre, post.
Qed.

Lemma contains_refl (s : string) : contains s s = true.
Proof. apply contains_iff. exists "", "". by rewrite append_nil_r. Qed.

Lemma contains_append_l (sub s t : string) :
  contains sub s = true -> contains sub (s +:+ t) = true.
Proof.
  rewrite !contains_iff. intros (pre & post & ->).
  exists pre, (post +:+ t). by rewrite !append_assoc.
Qed.

Lemma contains_append_r (sub s t : string) :
  contains sub t = true -> contains sub (s +:+ t) = true.
Proof.
  rewrite !contains_iff. intros (pre & post & ->).
  exists (s +:+ pre), post. by rewrite !append_assoc.
Qed.

Lemma contains_join (sub sep : string) (l : list string) (e : string) :
  e ∈ l -> contains sub e = true -> contains sub (join sep l) = true.
Proof.
  intros Hin He. induction Hin as [e l|e e' l Hin IH].
  - destruct l as [|e' l]; [done|].
    change (join sep (e :: e' :: l)) with (e +:+ sep +:+ join sep (e' :: l)).
    by apply contains_append_l.
  - destruct l as [|e'' l]; [by apply elem_of_nil in Hin|].
    change (join sep (e' :: e'' :: l)) with (e' +:+ sep +:+ join sep (e'' :: l)).
    do 2 apply contains_append_r. by apply IH.
Qed.

Create HintDb contains discriminated.
#[local] Hint Resolve contains_refl contains_append_l contains_append_r : contains.

(** Every element of a list shows up, quoted, in the list's [repr]. *)
Lemma contains_repr_list (x : string) (l : list string) :
  x ∈ l -> contains (repr_str x) (repr_list l) = true.
Proof.
  intros Hin. unfold repr_list.
  assert (contains (repr_str x) (join ", " (map repr_str l)) = true)
    by (apply contains_join with (e := repr_str x);
        [apply list_elem_of_fmap; by exists x|auto with contains]).
  auto with contains.
Qed.

End strings.

(** ** Allowlist validation *)
Section validation.
Import ga4_validation.

(** The list [errors] is empty exactly when all four checks pass. *)
Lemma plan_errors_nil (plan : Plan) :
  plan_errors plan = [] <->
    filter (fun m => m ∉ ALLOWED_METRICS) (default [] (metrics plan)) = [] /\
    filter (fun d => d ∉ ALLOWED_DIMENSIONS) (default [] (dimensions plan)) = [] /\
    (exists m ms, metrics plan = Some (m :: ms)) /\
    is_Some (date_range plan).
Proof.
  destruct plan as [ms ds dr fs].
  unfold plan_errors, validate_metrics, validate_dimensions.
  cbn [metrics dimensions date_range default from_option id].
  destruct ms as [ms|]; destruct ds as [ds|];
    cbn [default from_option id filter list_filter];
    try (set (inv := filter _ ms); clearbody inv);
    try (set (invd := filter _ ds); clearbody invd);
    destruct dr as [dr|];
    try destruct inv as [|m0 inv]; try destruct invd as [|d0 invd];
    try destruct ms as [|m ms]; cbn;
    (split; [try discriminate; intros _; repeat split; eauto|]);
    try (intros (? & ? & (? & ? & ?) & ?); discriminate);
    try (intros (? & ? & ? & []); discriminate); done.
Qed.

(** Where the offending names sit in [errors]. *)
Lemma plan_errors_metrics (plan : Plan) (ms : list string) :
  metrics plan = Some ms ->
  filter (fun m => m ∉ ALLOWED_METRICS) ms <> [] ->
  "Invalid metrics: " +:+ repr_list (filter (fun m => m ∉ ALLOWED_METRICS) ms)
    ∈ plan_errors plan.
Proof.
  destruct plan as [ms' ds dr fs]. cbn [metrics]. intros -> Hne.
  unfold plan_errors, validate_metrics, validate_dimensions.
  cbn [metrics dimensions date_range].
  set (inv := filter _ ms) in *. clearbody inv.
  destruct inv as [|m0 inv]; [done|].
  destruct ds as [ds|]; [set (invd := filter _ ds); clearbody invd; destruct invd|];
    destruct dr, ms; cbn; rewrite ?elem_of_cons; auto 10.
Qed.

Lemma plan_errors_dimensions (plan : Plan) (ds : list string) :
  dimensions plan = Some ds ->
  filter (fun d => d ∉ ALLOWED_DIMENSIONS) ds <> [] ->
  "Invalid dimensions: " +:+ repr_list (filter (fun d => d ∉ ALLOWED_DIMENSIONS) ds)
    ∈ plan_errors plan.
Proof.
  destruct plan as [ms ds' dr fs]. cbn [dimensions]. intros -> Hne.
  unfold plan_errors, validate_metrics, validate_dimensions.
  cbn [metrics dimensions date_range].
  set (invd := filter _ ds) in *. clearbody invd.
  destruct invd as [|d0 invd]; [done|].
  destruct ms as [ms|]; [set (inv := filter _ ms); clearbody inv; destruct inv|];
    destruct dr; try destruct ms; cbn; rewrite ?elem_of_cons; auto 10.
Qed.

Lemma filter_nil_iff {A} (P : A -> Prop) `{forall x, Decision (P x)} (l : list A) :
  filter P l = [] <-> forall x, x ∈ l -> ~ P x.
Proof.
  split.
  - intros Hnil x Hin HP. by apply (filter_nil_not_elem_of P l x).
  - intros Hall. destruct (filter P l) as [|y l'] eqn:Hf; [done|].
    assert (y ∈ filter P l) as Hy by (rewrite Hf; apply list_elem_of_here).
    apply list_elem_of_filter in Hy as [HP Hin]. by destruct (Hall y Hin).
Qed.

(** C1.  [validate_plan] raises exactly when some metric is outside the
    metrics allowlist, some dimension is outside the dimensions allowlist,
    [metrics] is absent or empty, or [date_range] is absent.  What it raises
    is then a [ValueError] whose message holds the [repr] of every offending
    metric and of every offending dimension; no [Validation] is returned. *)
Theorem validate_plan_raises_iff (plan : Plan) :
  (raises (validate_plan plan) <->
     (exists m, m ∈ default [] (metrics plan) /\ m ∉ ALLOWED_METRICS) \/
     (exists d, d ∈ default [] (dimensions plan) /\ d ∉ ALLOWED_DIMENSIONS) \/
     (metrics plan = None \/ metrics plan = Some []) \/
     date_range plan = None) /\
  (forall e, validate_plan plan = Raise e ->
     exists msg, e = ValueError msg /\
       (forall m, m ∈ default [] (metrics plan) -> m ∉ ALLOWED_METRICS ->
                  contains (repr_str m) msg = true) /\
       (forall d, d ∈ default [] (dimensions plan) -> d ∉ ALLOWED_DIMENSIONS ->
                  contains (repr_str d) msg = true)).
Proof.
  split.
  - assert (raises (validate_plan plan) <-> plan_errors plan <> []) as ->.
    { unfold validate_plan. by destruct (plan_errors plan). }
    rewrite plan_errors_nil, !filter_nil_iff. split.
    + intros Hnot.
      destruct (decide (Exists (fun m => m ∉ ALLOWED_METRICS) (default [] (metrics plan))))
        as [Hm|Hm].
      { apply Exists_exists in Hm. by left. }
      destruct (decide (Exists (fun d => d ∉ ALLOWED_DIMENSIONS) (default [] (dimensions plan))))
        as [Hd|Hd].
      { apply Exists_exists in Hd. right; by left. }
      right; right.
      destruct (metrics plan) as [[|m ms]|] eqn:Hms; [left; by right|..|left; by left].
      destruct (date_range plan) as [dr|] eqn:Hdr; [|by right].
      destruct Hnot. repeat split.
      * intros x Hx Hbad. apply Hm, Exists_exists. eauto.
      * intros x Hx Hbad. apply Hd, Exists_exists. eauto.
      * eauto.
      * eauto.
    + intros [(m & Hin & Hbad)|[(d & Hin & Hbad)|[[Hms|Hms]|Hdr]]] (Hm & Hd & (m' & ms' & Hsome) & Hdate).
      * by apply (Hm m).
      * by apply (Hd d).
      * congruence.
      * congruence.
      * rewrite Hdr in Hdate. by destruct Hdate.
  - intros e. unfold validate_plan.
    destruct (plan_errors plan) as [|e0 errs] eqn:Herrs; [discriminate|].
    intros [= <-].
    exists ("GA4 plan validation failed: " +:+ join "; " (plan_errors plan)).
    split; [by rewrite Herrs|]. split.
    + intros m Hin Hbad. destruct (metrics plan) as [ms|] eqn:Hms; simpl in Hin;
        [|by apply elem_of_nil in Hin].
      apply contains_append_r.
      eapply contains_join.
      * apply (plan_errors_metrics plan ms Hms).
        intros Hnil. by apply (filter_nil_not_elem_of _ _ m Hnil).
      * apply contains_append_r, contains_repr_list, list_elem_of_filter. done.
    + intros d Hin Hbad. destruct (dimensions plan) as [ds|] eqn:Hds; simpl in Hin;
        [|by apply elem_of_nil in Hin].
      apply contains_append_r.
      eapply contains_join.
      * apply (plan_errors_dimensions plan ds Hds).
        intros Hnil. by apply (filter_nil_not_elem_of _ _ d Hnil).
      * apply contains_append_r, contains_repr_list, list_elem_of_filter. done.
Qed.

End validation.

(** ** Date ranges *)
Section dates.
Import date_parser.

Lemma match_spaces_cons (c : ascii) (s : string) :
  match_spaces (String c s) =
    if is_space c
    then match match_spaces s with
         | Some u => Some u
         | None => match_unit (String c s)
         end
    else match_unit (String c s).
Proof. reflexivity. Qed.

Lemma match_digits_cons (acc : string) (c : ascii) (s : string) :
  match_digits acc (String c s) =
    let stop := match match_spaces (String c s) with
                | Some u => Some (acc, u)
                | None => None
                end in
    if is_digit c
    then match match_digits (acc +:+ String c "") s with
         | Some r => Some r
         | None => stop
         end
    else stop.
Proof. reflexivity. Qed.








(** The chain of membership tests answers exactly on the predefined labels. *)
Lemma predefined_Some (label : string) :
  is_Some (predefined label) <-> label ∈ predefined_labels.
Proof.
  unfold predefined, predefined_labels. split.
  - repeat (case_bool_decide as Hin;
      [ intros _; elem_cases Hin;
        repeat first [apply list_elem_of_here | apply list_elem_of_further]
      | clear Hin ]).
    by intros [r Hr].
  - intros Hlabel.
    repeat (case_bool_decide; [by eexists|]).
    elem_cases Hlabel;
      match goal with H : _ ∉ _ |- _ =>
        by (destruct H;
            repeat first [apply list_elem_of_here | apply list_elem_of_further])
      end.
Qed.

Lemma predefined_None (label : string) :
  label ∉ predefined_labels -> predefined label = None.
Proof.
  intros Hnot. destruct (predefined label) as [r|] eqn:Hp; [|done].
  destruct Hnot. apply predefined_Some. by rewrite Hp.
Qed.



Lemma length_append (s t : string) :
  String.length (s +:+ t) = (String.length s + String.length t)%nat.
Proof. induction s as [|c s IH]; [done|]. rewrite append_cons. cbn. by rewrite IH. Qed.




(** *** The size of the conversions *)

Lemma is_digit_value (c : ascii) : is_digit c = true -> (code c - 48 <= 9)%N.
Proof.
  unfold is_digit. intros [H1 H2]%andb_true_iff.
  apply N.leb_le in H1, H2. lia.
Qed.

(** A run of [k] digits denotes a number below [10 ^ k]. *)
Lemma int_of_digits_lt (ds : string) :
  all_chars is_digit ds = true ->
  (int_of_digits ds < 10 ^ N.of_nat (String.length ds))%N.
Proof.
  unfold int_of_digits.
  assert (forall acc,
            all_chars is_digit ds = true ->
            (fold_left (fun acc c => 10 * acc + (code c - 48)) (list_ascii_of_string ds) acc
             < (acc + 1) * 10 ^ N.of_nat (String.length ds))%N) as Hgen.
  { induction ds as [|c ds IH]; intros acc Hds.
    - cbn. lia.
    - cbn [all_chars] in Hds. apply andb_true_iff in Hds as [Hc Hds].
      apply is_digit_value in Hc.
      cbn [list_ascii_of_string fold_left String.length].
      eapply N.lt_le_trans; [apply (IH _ Hds)|].
      rewrite Nat2N.inj_succ, N.pow_succ_r'.
      assert (0 < 10 ^ N.of_nat (String.length ds))%N by (apply N.neq_0_lt_0, N.pow_nonzero; lia).
      nia. }
  intros Hds. specialize (Hgen 0%N Hds). lia.
Qed.

(** A number below [10 ^ k] is written with at most [k] digits (one, for
    zero). *)
Lemma length_pretty_N_go (k : nat) (x : N) (s : string) :
  (x < 10 ^ N.of_nat k)%N ->
  (String.length (pretty_N_go x s) <= String.length s + k)%nat.
Proof.
  revert x s. induction k as [|k IH]; intros x s Hx.
  - assert (x = 0%N) as -> by (cbn in Hx; lia). rewrite pretty_N_go_0. lia.
  - destruct (decide (x = 0%N)) as [->|Hne]; [rewrite pretty_N_go_0; lia|].
    rewrite pretty_N_go_step by lia.
    etrans; [apply IH|cbn; lia].
    rewrite Nat2N.inj_succ, N.pow_succ_r' in Hx.
    apply N.Div0.div_lt_upper_bound; lia.
Qed.

Lemma length_pretty_N (k : nat) (x : N) :
  (x < 10 ^ N.of_nat (S k))%N -> (String.length (pretty x) <= S k)%nat.
Proof.
  intros Hx. unfold pretty, pretty_N.
  destruct (decide (x = 0%N)) as [->|Hne]; [cbn; lia|].
  by apply (length_pretty_N_go (S k) x "").
Qed.

Lemma int_of_str_Ok (ds : string) :
  (String.length ds <= int_max_str_digits)%nat -> int_of_str ds = Ok (int_of_digits ds).
Proof.
  intros Hds. unfold int_of_str.
  by destruct (Nat.ltb_spec int_max_str_digits (String.length ds)); [lia|].
Qed.

Lemma str_of_int_Ok (n : N) :
  (String.length (pretty n) <= int_max_str_digits)%nat -> str_of_int n = Ok (pretty n).
Proof.
  intros Hn. unfold str_of_int.
  by destruct (Nat.ltb_spec int_max_str_digits (String.length (pretty n))); [lia|].
Qed.





(** C2 (as the code behaves).  A label written with a space, as in the
    comment of the numeric branch, is normalised to [5_days] before the
    pattern is tried; the underscore stops the match, and the default range
    comes back. *)
Theorem spaced_numeric_labels_yield_default :
  parse_date_range "5 days" = Ok {| start_date := "7daysAgo"; end_date := "today" |} /\
  parse_date_range "3 weeks" = Ok {| start_date := "7daysAgo"; end_date := "today" |} /\
  parse_date_range "2 months" = Ok {| start_date := "7daysAgo"; end_date := "today" |} /\
  normalize "5 days" = "5_days" /\
  re_search "5_days" = None /\
  parse_date_range "5days" = Ok {| start_date := "5daysAgo"; end_date := "today" |} /\
  parse_date_range "3weeks" = Ok {| start_date := "21daysAgo"; end_date := "today" |} /\
  parse_date_range "2months" = Ok {| start_date := "60daysAgo"; end_date := "today" |}.
Proof. repeat split; vm_compute; reflexivity. Qed.

(** C7.  The three labels of the seven-day group resolve to the same range,
    [7daysAgo] to [today], and that range is described as [Last 7 days]. *)
Theorem seven_day_synonyms :
  parse_date_range "last_7_days" = Ok {| start_date := "7daysAgo"; end_date := "today" |} /\
  parse_date_range "last week" = Ok {| start_date := "7daysAgo"; end_date := "today" |} /\
  parse_date_range "past_7_days" = Ok {| start_date := "7daysAgo"; end_date := "today" |} /\
  get_human_readable_range {| start_date := "7daysAgo"; end_date := "today" |}
    = "Last 7 days".
Proof. repeat split; vm_compute; reflexivity. Qed.


End dates.



(** ** The fallback planner *)
Section planner.
Import ga4_validation llm.

(** C8.  On [show me user traffic by country last month] the fallback planner
    replaces the default metric by the two user metrics, appends [country] to
    the default dimension, and sets the thirty-day token. *)
Theorem fallback_plan_user_country_month :
  _fallback_plan "show me user traffic by country last month" =
    {| metrics := Some ["totalUsers"; "activeUsers"];
       dimensions := Some ["date"; "country"];
       date_range := Some "last_30_days";
       filters := None |} /\
  (exists ds, dimensions (_fallback_plan "show me user traffic by country last month")
                = Some ds /\ "country" ∈ ds).
Proof.
  split; [vm_compute; reflexivity|].
  exists ["date"; "country"]. split; [vm_compute; reflexivity|set_solver].
Qed.

(** The rules at work on that query: the user rule fires, the page-view and
    bounce rules do not, so the user metrics stand; a later rule that fires
    overwrites an earlier one. *)
Lemma fallback_plan_later_rule_overwrites :
  metrics (_fallback_plan "user page views") = Some ["screenPageViews"] /\
  metrics (_fallback_plan "user bounce views") = Some ["bounceRate"] /\
  dimensions (_fallback_plan "pages by country and device")
    = Some ["date"; "pagePath"; "country"; "deviceCategory"].
Proof. repeat split; vm_compute; reflexivity. Qed.

(** Every plan the fallback planner can build has no validation error. *)
Lemma fallback_plan_errors (query : string) : plan_errors (_fallback_plan query) = [].
Proof.
  apply plan_errors_nil. unfold _fallback_plan.
  cbn [metrics dimensions date_range default from_option id].
  repeat split.
  - repeat case_match; apply filter_nil_iff;
      intros m Hm; elem_cases Hm; intros Hbad; apply Hbad; by vm_compute.
  - repeat case_match; try discriminate; apply filter_nil_iff;
      intros d Hd; elem_cases Hd; intros Hbad; apply Hbad; by vm_compute.
  - repeat case_match; eauto.
  - eauto.
Qed.

(** C10.  Whatever the query, the plan of the fallback planner has a
    non-empty list of metrics, all of them allowed, only allowed dimensions,
    and a date range; [validate_plan] accepts it. *)
Theorem fallback_plan_is_valid (query : string) :
  (exists ms, metrics (_fallback_plan query) = Some ms /\ ms <> [] /\
              Forall (fun m => m ∈ ALLOWED_METRICS) ms) /\
  (exists ds, dimensions (_fallback_plan query) = Some ds /\
              Forall (fun d => d ∈ ALLOWED_DIMENSIONS) ds) /\
  is_Some (date_range (_fallback_plan query)) /\
  (exists v, validate_plan (_fallback_plan query) = Ok v).
Proof.
  pose proof (fallback_plan_errors query) as Herr.
  pose proof (proj1 (plan_errors_nil _) Herr) as (Hm & Hd & (m & ms & Hms) & Hdr).
  repeat split.
  - exists (m :: ms). split; [done|]. split; [done|].
    rewrite Hms in Hm. cbn [default from_option id] in Hm.
    apply Forall_forall. intros x Hx.
    destruct (decide (x ∈ ALLOWED_METRICS)) as [|Hbad]; [done|].
    by destruct (proj1 (filter_nil_iff _ _) Hm x Hx).
  - destruct (dimensions (_fallback_plan query)) as [ds|] eqn:Hds; [|done].
    exists ds. split; [done|]. cbn [default from_option id] in Hd.
    apply Forall_forall. intros x Hx.
    destruct (decide (x ∈ ALLOWED_DIMENSIONS)) as [|Hbad]; [done|].
    by destruct (proj1 (filter_nil_iff _ _) Hd x Hx).
  - done.
  - unfold validate_plan. rewrite Herr. eauto.
Qed.

End planner.

(** ** The SEO health score *)
Section seo.
Import seo_agent.

Lemma count_pos (mask : Row -> bool) (df : DataFrame) :
  Nat.ltb 0 (count mask df) = existsb mask (rows df).
Proof.
  unfold count. induction (rows df) as [|r l IH]; [done|].
  simpl. destruct (mask r); [done|]. apply IH.
Qed.

Lemma count_zero (mask : Row -> bool) (df : DataFrame) :
  count mask df = 0%nat -> existsb mask (rows df) = false.
Proof. intros H. by rewrite <- count_pos, H. Qed.

Lemma count_one (mask : Row -> bool) (df : DataFrame) :
  count mask df = 1%nat -> existsb mask (rows df) = true.
Proof. intros H. by rewrite <- count_pos, H. Qed.

Lemma fst_deduct (n : nat) (weight : Z) (text : string) (state : Z * list string) :
  (deduct n weight text state).1 = state.1 - (if Nat.ltb 0 n then weight else 0).
Proof. destruct state as [h i]. unfold deduct. destruct (Nat.ltb 0 n); simpl; lia. Qed.

Lemma getitem_column_Ok (df : DataFrame) (name : string) :
  name ∈ columns df -> getitem_column df name = Ok tt.
Proof. intros H. unfold getitem_column. by rewrite bool_decide_eq_true_2. Qed.

Lemma str_accessor_Ok (df : DataFrame) (name : string) :
  dtypes df name = object -> str_accessor df name = Ok tt.
Proof. intros H. unfold str_accessor. by rewrite H. Qed.

Lemma str_accessor_Raise (df : DataFrame) (name : string) :
  dtypes df name <> object ->
  str_accessor df name = Raise (AttributeError str_accessor_message).
Proof. intros H. unfold str_accessor. by destruct (dtypes df name). Qed.

(** A table that lacks one of the three text columns gets no score. *)
Lemma health_check_needs_columns (df : DataFrame) :
  "Address" ∉ columns df \/ "Title 1" ∉ columns df \/
  "Meta Description 1" ∉ columns df ->
  exists msg, general_seo_health df = health_error msg.
Proof.
  intros H. unfold general_seo_health, getitem_column.
  case_bool_decide as Ha; cbn [bind]; [|by eexists].
  destruct (str_accessor df "Address"); cbn [bind]; [|by eexists].
  case_bool_decide as Ht; cbn [bind]; [|by eexists].
  destruct (str_accessor df "Title 1"); cbn [bind]; [|by eexists].
  case_bool_decide as Hm; cbn [bind]; [|by eexists].
  by destruct H as [H|[H|H]].
Qed.

(** The score as a closed formula over the table. *)
Lemma health_score_formula (df : DataFrame) :
  "Address" ∈ columns df -> "Title 1" ∈ columns df ->
  "Meta Description 1" ∈ columns df ->
  dtypes df "Address" = object -> dtypes df "Title 1" = object ->
  exists report,
    general_seo_health df = health_report report /\
    health_score report =
      Z.max 0
        (100
         - (if existsb (address_startswith "http://") (rows df) then 20 else 0)
         - (if existsb (fun r => isna_or_empty (Title_1 r)) (rows df) then 15 else 0)
         - (if existsb (fun r => str_len_gt 60 (Title_1 r)) (rows df) then 10 else 0)
         - (if existsb (fun r => isna_or_empty (Meta_Description_1 r)) (rows df)
            then 10 else 0)
         - (if bool_decide ("Status Code" ∈ columns df)
               && existsb (fun r => status_not_200 (Status_Code r)) (rows df)
            then 15 else 0)).
Proof.
  intros Ha Ht Hm Hat Htt. unfold general_seo_health.
  rewrite !getitem_column_Ok, !str_accessor_Ok by done. cbn [bind].
  match goal with |- context [let '(h, i) := ?st in _] =>
    assert (st.1 = 100
      - (if existsb (address_startswith "http://") (rows df) then 20 else 0)
      - (if existsb (fun r => isna_or_empty (Title_1 r)) (rows df) then 15 else 0)
      - (if existsb (fun r => str_len_gt 60 (Title_1 r)) (rows df) then 10 else 0)
      - (if existsb (fun r => isna_or_empty (Meta_Description_1 r)) (rows df)
         then 10 else 0)
      - (if bool_decide ("Status Code" ∈ columns df)
            && existsb (fun r => status_not_200 (Status_Code r)) (rows df)
         then 15 else 0)) as Hscore;
    [|destruct st as [h i]; cbn [fst] in Hscore; subst h; by eexists]
  end.
  destruct (bool_decide ("Status Code" ∈ columns df)); cbn [andb];
    rewrite !fst_deduct, !count_pos; cbn [fst]; lia.
Qed.

(** C5, as the code has it.  On a table with the three columns, the
    addresses and the titles being text, the check returns a report whose
    score is 100, minus 20 if some address
    starts with [http://], minus 15 if some title is missing, minus 10 if
    some title is longer than 60 characters, minus 10 if some meta
    description is missing, minus 15 if the table has a status column and
    some status is not 200, and not below 0.  A table of five rows with one
    [http://] address, one missing title and nothing else to deduct scores
    65. *)
Theorem general_seo_health_score (df : DataFrame) :
  "Address" ∈ columns df -> "Title 1" ∈ columns df ->
  "Meta Description 1" ∈ columns df ->
  dtypes df "Address" = object -> dtypes df "Title 1" = object ->
  exists report,
    general_seo_health df = health_report report /\
    health_score report =
      Z.max 0
        (100
         - (if existsb (address_startswith "http://") (rows df) then 20 else 0)
         - (if existsb (fun r => isna_or_empty (Title_1 r)) (rows df) then 15 else 0)
         - (if existsb (fun r => str_len_gt 60 (Title_1 r)) (rows df) then 10 else 0)
         - (if existsb (fun r => isna_or_empty (Meta_Description_1 r)) (rows df)
            then 10 else 0)
         - (if bool_decide ("Status Code" ∈ columns df)
               && existsb (fun r => status_not_200 (Status_Code r)) (rows df)
            then 15 else 0)) /\
    (length (rows df) = 5%nat ->
     count (address_startswith "http://") df = 1%nat ->
     count (fun r => isna_or_empty (Title_1 r)) df = 1%nat ->
     count (fun r => str_len_gt 60 (Title_1 r)) df = 0%nat ->
     count (fun r => isna_or_empty (Meta_Description_1 r)) df = 0%nat ->
     count (fun r => status_not_200 (Status_Code r)) df = 0%nat ->
     health_score report = 65).
Proof.
  intros Ha Ht Hm Hat Htt.
  destruct (health_score_formula df Ha Ht Hm Hat Htt) as (report & Hrun & Hscore).
  exists report. split; [done|]. split; [done|].
  intros _ Hhttp Htitle Hlong Hmeta Hstatus. rewrite Hscore.
  rewrite (count_one _ _ Hhttp), (count_one _ _ Htitle), (count_zero _ _ Hlong),
    (count_zero _ _ Hmeta), (count_zero _ _ Hstatus).
  by rewrite andb_false_r.
Qed.

End seo.

(** A table of five rows, one of them served over plain HTTP and one
    without a title. *)
Lemma general_seo_health_score_witness :
  exists report,
    seo_agent.general_seo_health
      {| seo_agent.columns := seo_agent.sample_columns;
         seo_agent.dtypes := seo_agent.sample_dtypes;
         seo_agent.rows :=
           [ seo_agent.sample_row "http://example.com/" "Home" "Welcome" 200;
             {| seo_agent.Address := Some "https://example.com/a";
                seo_agent.Title_1 := None;
                seo_agent.Meta_Description_1 := Some "About";
                seo_agent.Status_Code := Some 200 |};
             seo_agent.sample_row "https://example.com/b" "B" "Page b" 200;
             seo_agent.sample_row "https://example.com/c" "C" "Page c" 200;
             seo_agent.sample_row "https://example.com/d" "D" "Page d" 200 ] |}
      = seo_agent.health_report report /\
    seo_agent.health_score report = 65.
Proof.
  destruct (general_seo_health_score
    {| seo_agent.columns := seo_agent.sample_columns;
       seo_agent.dtypes := seo_agent.sample_dtypes;
       seo_agent.rows :=
         [ seo_agent.sample_row "http://example.com/" "Home" "Welcome" 200;
           {| seo_agent.Address := Some "https://example.com/a";
              seo_agent.Title_1 := None;
              seo_agent.Meta_Description_1 := Some "About";
              seo_agent.Status_Code := Some 200 |};
           seo_agent.sample_row "https://example.com/b" "B" "Page b" 200;
           seo_agent.sample_row "https://example.com/c" "C" "Page c" 200;
           seo_agent.sample_row "https://example.com/d" "D" "Page d" 200 ] |})
    as (report & Hrun & _ & Hscore).
  - by apply (bool_decide_unpack _).
  - by apply (bool_decide_unpack _).
  - by apply (bool_decide_unpack _).
  - reflexivity.
  - reflexivity.
  - exists report. split; [exact Hrun|]. by apply Hscore.
Defined.

(** C5, as stated, fails: a row whose address is not on [https] is
    penalised only when the address starts with [http://].  Here the one
    row that is not on [https] is an [ftp] address. *)
Lemma non_https_row_not_penalised :
  let df :=
    {| seo_agent.columns := seo_agent.sample_columns;
       seo_agent.dtypes := seo_agent.sample_dtypes;
       seo_agent.rows :=
         [ seo_agent.sample_row "ftp://example.com/files" "Files" "Downloads" 200;
           {| seo_agent.Address := Some "https://example.com/a";
              seo_agent.Title_1 := None;
              seo_agent.Meta_Description_1 := Some "About";
              seo_agent.Status_Code := Some 200 |};
           seo_agent.sample_row "https://example.com/b" "B" "Page b" 200;
           seo_agent.sample_row "https://example.com/c" "C" "Page c" 200;
           seo_agent.sample_row "https://example.com/d" "D" "Page d" 200 ] |} in
  length (seo_agent.rows df) = 5%nat /\
  seo_agent.count seo_agent.non_https df = 1%nat /\
  seo_agent.count (fun r => seo_agent.isna_or_empty (seo_agent.Title_1 r)) df = 1%nat /\
  seo_agent.count (fun r => seo_agent.str_len_gt 60 (seo_agent.Title_1 r)) df = 0%nat /\
  seo_agent.count
    (fun r => seo_agent.isna_or_empty (seo_agent.Meta_Description_1 r)) df = 0%nat /\
  seo_agent.count
    (fun r => seo_agent.status_not_200 (seo_agent.Status_Code r)) df = 0%nat /\
  exists report,
    seo_agent.general_seo_health df = seo_agent.health_report report /\
    seo_agent.health_score report = 85 /\
    seo_agent.health_score report <> 65.
Proof.
  cbv zeta. repeat split; try (vm_compute; reflexivity).
  eexists. split; [vm_compute; reflexivity|]. split; [reflexivity|discriminate].
Qed.

(** ** The analytics agent without credentials *)
Section analytics.
Import ga4_validation llm ga4_agent.
Context {Client Rng : Type}.
Variable run_report : Client -> RunReportRequest -> result Report.
Variable randint : Z -> Z -> Rng -> Z * Rng.
Variable choice : list string -> Rng -> string * Rng.
Variable strftime_days_ago : nat -> string.

Lemma load_global_logger :
  load_global "logger" = Raise (NameError "name 'logger' is not defined").
Proof. vm_compute. reflexivity. Qed.

(** Without a credentials file, or with one that cannot be loaded, the
    constructor itself raises. *)
Lemma init_without_credentials (credentials_file : option (result Client)) :
  (credentials_file = None \/ exists e, credentials_file = Some (Raise e)) ->
  init credentials_file = Raise (NameError "name 'logger' is not defined").
Proof. intros [->|[e ->]]; unfold init; by rewrite load_global_logger. Qed.

Lemma for_each_length {A B S} (f : A -> S -> B * S) (l : list A) (s : S) :
  length (for_each f l s).1 = length l.
Proof.
  revert s. induction l as [|a l IH]; intros s; [done|].
  simpl. destruct (f a s) as [b s1]. specialize (IH s1).
  destruct (for_each f l s1) as [bs s2]. simpl in *. by rewrite IH.
Qed.

(** The mock response itself has one row per day of the seven-day window. *)
Lemma MockResponse_rows (ds ms : list string) (g : Rng) :
  length (report_rows (MockResponse randint choice strftime_days_ago ds ms g).1) = 7%nat.
Proof.
  unfold MockResponse.
  match goal with |- context [for_each ?f (seq 0 7) g] =>
    pose proof (for_each_length f (seq 0 7) g) as Hlen;
    destruct (for_each f (seq 0 7) g) as [rows g'] end.
  exact Hlen.
Qed.

(** C6 (as the code behaves).  An agent without valid credentials does not
    reach the mock data: the name [logger] is bound nowhere in the module, so
    the demo branch raises [NameError], and [run] returns the error envelope
    of its last [except] clause. *)
Theorem run_without_credentials (self : GA4Agent) (response : completion) (g : Rng)
    (query property_id : string) (v : Validation) :
  credentials_valid self = false \/ client self = None ->
  validate_plan (parse_analytics_query response query) = Ok v ->
  run run_report randint choice strftime_days_ago self response g query property_id
    = processing_error (NameError "name 'logger' is not defined") query property_id /\
  run run_report randint choice strftime_days_ago self response g query property_id
    !! "error" = Some (VStr "Analytics processing failed: name 'logger' is not defined").
Proof.
  intros Hcred Hvalid.
  assert (run run_report randint choice strftime_days_ago self response g query property_id
    = processing_error (NameError "name 'logger' is not defined") query property_id) as ->.
  { unfold run. rewrite Hvalid. cbn [bind]. unfold _execute_ga4_request.
    destruct self as [[c|] [|]]; cbn [credentials_valid client] in *;
      try (destruct Hcred; discriminate); by rewrite load_global_logger. }
  split; [done|]. unfold processing_error. by rewrite lookup_insert_eq.
Qed.

End analytics.

(** The agent built with no usable credentials, asked for sessions by date. *)
Lemma run_without_credentials_witness :
  ga4_agent.run (Client := unit) (Rng := unit)
      (fun _ _ => Ok {| ga4_agent.report_rows := [] |})
      (fun lo _ g => (lo, g)) (fun _ g => ("/", g)) (fun _ => "20240101")
      {| ga4_agent.client := None; ga4_agent.credentials_valid := false |}
      (llm.failed (OtherException "no connection")) tt "sessions by date" "123"
    !! "error" = Some (VStr "Analytics processing failed: name 'logger' is not defined").
Proof.
  refine (proj2 (run_without_credentials _ _ _ _ _ _ _ _ _
    {| ga4_validation.valid := true; ga4_validation.metrics_count := 1;
       ga4_validation.dimensions_count := 1;
       ga4_validation.validated_at := "ga4_validation.py" |} _ _)).
  - by left.
  - vm_compute. reflexivity.
Defined.

(** ** The orchestrator *)
Section router.
Import orchestrator.
Variable ga4_run : string -> string -> result Response.
Variable seo_run : string -> result Response.

Lemma falsy_false (o : option string) :
  falsy o = false <-> exists s, o = Some s /\ s <> "".
Proof.
  destruct o as [s|]; simpl.
  - rewrite String.eqb_neq. split; [eauto|]. by intros (s' & [= <-] & Hne).
  - split; [done|]. by intros (s' & [=] & _).
Qed.

(** C4.  When the lowered query holds an analytics keyword and the request
    carries no [propertyId], [handle] returns the missing-identifier
    envelope and has invoked neither agent. *)
Theorem handle_missing_property_id (req : QueryRequest) :
  _detect_ga4_intent (lower (query req)) = true ->
  propertyId req = None ->
  handle ga4_run seo_run req = (missing_property_id req, []) /\
  missing_property_id req !! "error"
    = Some (VStr "propertyId is required for GA4 analytics queries").
Proof.
  intros Hga4 Hid. unfold handle. rewrite Hga4, Hid. split; [done|].
  unfold missing_property_id. by rewrite lookup_insert_eq.
Qed.

(** The same holds for an empty [propertyId], which [not req.propertyId]
    treats like a missing one. *)
Lemma handle_falsy_property_id (req : QueryRequest) :
  _detect_ga4_intent (lower (query req)) = true ->
  falsy (propertyId req) = true ->
  handle ga4_run seo_run req = (missing_property_id req, []).
Proof. intros Hga4 Hid. unfold handle. by rewrite Hga4, Hid. Qed.

Lemma has_key_false (key : string) (d : Response) :
  d !! key = None -> has_key key d = false.
Proof.
  intros H. unfold has_key. apply bool_decide_eq_false. rewrite H.
  by intros [v Hv].
Qed.

(** C3, as the code has it.  When the lowered query matches both keyword
    sets, a non-empty [propertyId] is supplied, and both agents return a
    [dict] without an [error] key, [handle] invokes the analytics agent and
    then the SEO agent and returns the merged envelope: its [data] has
    exactly the keys [analytics] and [seo], bound to the two results, and its
    [insights] holds two entries. *)
Theorem handle_both_intents (req : QueryRequest) (pid : string) (ra rs : Response) :
  _detect_ga4_intent (lower (query req)) = true ->
  _detect_seo_intent (lower (query req)) = true ->
  propertyId req = Some pid ->
  pid <> "" ->
  ga4_run (query req) pid = Ok ra ->
  seo_run (query req) = Ok rs ->
  ra !! "error" = None ->
  rs !! "error" = None ->
  exists (data : gmap string Value) (insights : list string),
    handle ga4_run seo_run req =
      (<[ "query" := VStr (query req) ]>
       (<[ "summary" := VStr "Combined analytics and SEO insights" ]>
       (<[ "insights" := VStrs insights ]>
       (<[ "data" := VDict data ]> ∅))),
       [ga4_agent_run (query req) pid; seo_agent_run (query req)]) /\
    (handle ga4_run seo_run req).1 !! "data" = Some (VDict data) /\
    (handle ga4_run seo_run req).1 !! "insights" = Some (VStrs insights) /\
    dom data = {[ "analytics"; "seo" ]} /\
    data !! "analytics" = Some (VDict ra) /\
    data !! "seo" = Some (VDict rs) /\
    insights <> [].
Proof.
  intros Hga4 Hseo Hid Hne Hra Hrs Hea Hes.
  exists (<[ "analytics" := VDict ra ]> (<[ "seo" := VDict rs ]> ∅)),
    [ "Cross-referencing traffic data with SEO health indicators";
      "Both analytics and SEO data available for comprehensive analysis" ].
  assert (handle ga4_run seo_run req =
      (<[ "query" := VStr (query req) ]>
       (<[ "summary" := VStr "Combined analytics and SEO insights" ]>
       (<[ "insights" := VStrs
             [ "Cross-referencing traffic data with SEO health indicators";
               "Both analytics and SEO data available for comprehensive analysis" ] ]>
       (<[ "data" := VDict (<[ "analytics" := VDict ra ]> (<[ "seo" := VDict rs ]> ∅)) ]> ∅))),
       [ga4_agent_run (query req) pid; seo_agent_run (query req)])) as Hhandle.
  { unfold handle. rewrite Hga4, Hseo, Hid.
    assert (falsy (Some pid) = false) as -> by (apply falsy_false; eauto).
    cbn [andb default from_option id]. rewrite Hra, Hrs.
    cbn [app]. unfold _merge_responses, _generate_combined_insights.
    cbn [getitem_responses String.eqb Ascii.eqb Bool.eqb].
    rewrite (has_key_false _ _ Hea), (has_key_false _ _ Hes). reflexivity. }
  rewrite Hhandle. cbn [fst]. split; [done|].
  split; [by rewrite !lookup_insert_ne, lookup_insert_eq by done|].
  split; [by rewrite !lookup_insert_ne, lookup_insert_eq by done|].
  split; [rewrite !dom_insert_L, dom_empty_L; set_solver|].
  split; [by rewrite lookup_insert_eq|].
  split; [by rewrite lookup_insert_ne, lookup_insert_eq by done|done].
Qed.

End router.

(** A request for sessions and titles with an identifier. *)
Lemma handle_both_intents_witness :
  exists (data : gmap string Value) (insights : list string),
    (orchestrator.handle
       (fun _ _ => Ok {[ "summary" := VStr "report" ]})
       (fun _ => Ok {[ "summary" := VStr "audit" ]})
       {| orchestrator.query := "Sessions and title tags";
          orchestrator.propertyId := Some "123456789" |}).1 !! "data"
      = Some (VDict data) /\
    dom data = {[ "analytics"; "seo" ]} /\
    insights <> [].
Proof.
  destruct (handle_both_intents
      (fun _ _ => Ok {[ "summary" := VStr "report" ]})
      (fun _ => Ok {[ "summary" := VStr "audit" ]})
      {| orchestrator.query := "Sessions and title tags";
         orchestrator.propertyId := Some "123456789" |}
      "123456789" {[ "summary" := VStr "report" ]} {[ "summary" := VStr "audit" ]})
    as (data & insights & _ & Hdata & _ & Hdom & _ & _ & Hins);
    [reflexivity|reflexivity|reflexivity|discriminate|reflexivity|reflexivity
    |reflexivity|reflexivity|].
  exists data, insights. auto.
Defined.

(** A request for page views without an identifier. *)
Lemma handle_missing_property_id_witness :
  orchestrator.handle
    (fun _ _ => Ok {[ "summary" := VStr "report" ]})
    (fun _ => Ok {[ "summary" := VStr "audit" ]})
    {| orchestrator.query := "Show me page views";
       orchestrator.propertyId := None |}
  = (orchestrator.missing_property_id
       {| orchestrator.query := "Show me page views";
          orchestrator.propertyId := None |}, []).
Proof.
  refine (proj1 (handle_missing_property_id _ _ _ _ _)); reflexivity.
Defined.

(** C3, as stated, fails: an empty [propertyId] is supplied, both agents
    would return a result without an [error] key, and yet [handle] returns
    the missing-identifier envelope and invokes no agent. *)
Lemma handle_empty_property_id :
  let ga4 := fun (_ _ : string) => Ok ({[ "summary" := VStr "report" ]} : gmap string Value) in
  let seo := fun (_ : string) => Ok ({[ "summary" := VStr "audit" ]} : gmap string Value) in
  let req := {| orchestrator.query := "sessions and title";
                orchestrator.propertyId := Some "" |} in
  orchestrator._detect_ga4_intent (lower (orchestrator.query req)) = true /\
  orchestrator._detect_seo_intent (lower (orchestrator.query req)) = true /\
  orchestrator.propertyId req = Some "" /\
  (exists ra, ga4 (orchestrator.query req) "" = Ok ra /\ ra !! "error" = None) /\
  (exists rs, seo (orchestrator.query req) = Ok rs /\ rs !! "error" = None) /\
  orchestrator.handle ga4 seo req = (orchestrator.missing_property_id req, []) /\
  (orchestrator.handle ga4 seo req).1 !! "data" = None /\
  (orchestrator.handle ga4 seo req).1 !! "insights" = None.
Proof.
  cbv zeta. repeat split; try reflexivity.
  - by eexists.
  - by eexists.
Qed.

(** * Further properties *)

(** ** Routing *)
Section routing.
Import orchestrator.
Variable ga4_run : string -> string -> result Response.
Variable seo_run : string -> result Response.

Lemma has_key_negb (key : string) (d : Response) :
  negb (has_key key d) = bool_decide (d !! key = None).
Proof.
  unfold has_key. destruct (d !! key) as [v|] eqn:Hd.
  - rewrite bool_decide_eq_true_2 by eauto. by rewrite bool_decide_eq_false_2.
  - rewrite bool_decide_eq_false_2 by (by intros [v Hv]). by rewrite bool_decide_eq_true_2.
Qed.

(** A query that holds no keyword of either set is answered with the
    could-not-determine-intent envelope, which lists the two supported
    intents; no agent is invoked, whatever the [propertyId]. *)
Theorem handle_no_intent (req : QueryRequest) :
  _detect_ga4_intent (lower (query req)) = false ->
  _detect_seo_intent (lower (query req)) = false ->
  handle ga4_run seo_run req = (no_intent req, []) /\
  is_Some (no_intent req !! "error") /\
  no_intent req !! "query" = Some (VStr (query req)) /\
  no_intent req !! "supported_intents"
    = Some (VStrs [ "Analytics: page views, users, sessions, traffic";
                    "SEO: titles, meta tags, indexing, HTTPS status" ]).
Proof.
  intros Hga4 Hseo. unfold handle. rewrite Hga4, Hseo. cbn [andb].
  split; [done|]. unfold no_intent.
  split; [by rewrite lookup_insert_eq|].
  split; [by rewrite lookup_insert_ne, lookup_insert_eq by done|].
  by rewrite !lookup_insert_ne, lookup_insert_eq by done.
Qed.

(** A query with SEO intent only gets the result of the SEO agent as it is,
    not wrapped in an envelope; when the agent raises, the result is the
    single-key envelope of the [except] clause.  The SEO agent is the only
    one invoked, it receives the query as typed (not lowered), and the
    [propertyId] plays no part. *)
Theorem handle_seo_only (req : QueryRequest) :
  _detect_ga4_intent (lower (query req)) = false ->
  _detect_seo_intent (lower (query req)) = true ->
  handle ga4_run seo_run req =
    (match seo_run (query req) with
     | Ok r => r
     | Raise e => {[ "error" := VStr ("SEO processing failed: " +:+ str_of_exn e) ]}
     end,
     [seo_agent_run (query req)]).
Proof. intros Hga4 Hseo. unfold handle. by rewrite Hga4, Hseo. Qed.

(** A query with analytics intent only and a non-empty [propertyId] gets the
    result of the analytics agent as it is, or the single-key envelope of
    the [except] clause when the agent raises.  The agent is invoked once,
    with the query as typed and the [propertyId] of the request. *)
Theorem handle_analytics_only (req : QueryRequest) (pid : string) :
  _detect_ga4_intent (lower (query req)) = true ->
  _detect_seo_intent (lower (query req)) = false ->
  propertyId req = Some pid ->
  pid <> "" ->
  handle ga4_run seo_run req =
    (match ga4_run (query req) pid with
     | Ok r => r
     | Raise e => {[ "error" := VStr ("Analytics processing failed: " +:+ str_of_exn e) ]}
     end,
     [ga4_agent_run (query req) pid]).
Proof.
  intros Hga4 Hseo Hid Hne. unfold handle. rewrite Hga4, Hseo, Hid.
  assert (falsy (Some pid) = false) as -> by (apply falsy_false; eauto).
  reflexivity.
Qed.

(** With both intents and a non-empty [propertyId], both agents are invoked,
    analytics first, whatever either of them does: an agent that raises
    leaves its error envelope under its own key and does not keep the other
    from running.  The merged envelope has exactly the keys [query],
    [summary], [insights] and [data]; [data] has exactly the keys
    [analytics] and [seo]; [insights] always starts with the
    cross-referencing note, and holds the second note exactly when neither
    entry of [data] has an [error] key. *)
Theorem handle_merges_whatever_agents_do (req : QueryRequest) (pid : string) :
  _detect_ga4_intent (lower (query req)) = true ->
  _detect_seo_intent (lower (query req)) = true ->
  propertyId req = Some pid ->
  pid <> "" ->
  let analytics :=
    match ga4_run (query req) pid with
    | Ok r => r
    | Raise e => {[ "error" := VStr ("Analytics processing failed: " +:+ str_of_exn e) ]}
    end in
  let seo :=
    match seo_run (query req) with
    | Ok r => r
    | Raise e => {[ "error" := VStr ("SEO processing failed: " +:+ str_of_exn e) ]}
    end in
  (handle ga4_run seo_run req).2
    = [ga4_agent_run (query req) pid; seo_agent_run (query req)] /\
  dom (handle ga4_run seo_run req).1 = {[ "query"; "summary"; "insights"; "data" ]} /\
  (handle ga4_run seo_run req).1 !! "query" = Some (VStr (query req)) /\
  (handle ga4_run seo_run req).1 !! "data"
    = Some (VDict {[ "analytics" := VDict analytics; "seo" := VDict seo ]}) /\
  (handle ga4_run seo_run req).1 !! "insights"
    = Some (VStrs ("Cross-referencing traffic data with SEO health indicators" ::
                   if bool_decide (analytics !! "error" = None /\ seo !! "error" = None)
                   then ["Both analytics and SEO data available for comprehensive analysis"]
                   else [])).
Proof.
  intros Hga4 Hseo Hid Hne analytics seo.
  assert (handle ga4_run seo_run req =
    (_merge_responses [("analytics", analytics); ("seo", seo)] (query req),
     [ga4_agent_run (query req) pid; seo_agent_run (query req)])) as ->.
  { unfold handle. rewrite Hga4, Hseo, Hid.
    assert (falsy (Some pid) = false) as -> by (apply falsy_false; eauto).
    reflexivity. }
  cbn [fst snd]. unfold _merge_responses.
  split; [done|].
  split; [rewrite !dom_insert_L, dom_empty_L; set_solver|].
  split; [by rewrite lookup_insert_eq|].
  split.
  { by rewrite !lookup_insert_ne, lookup_insert_eq by done. }
  rewrite !lookup_insert_ne, lookup_insert_eq by done. do 2 f_equal.
  unfold _generate_combined_insights.
  cbn [getitem_responses String.eqb Ascii.eqb Bool.eqb].
  rewrite !has_key_negb.
  destruct (analytics !! "error") as [va|] eqn:Ha;
    destruct (seo !! "error") as [vs|] eqn:Hs;
    rewrite ?bool_decide_eq_true_2, ?bool_decide_eq_false_2 by (intuition congruence);
    reflexivity.
Qed.

End routing.

(** A greeting has no keyword of either set. *)
Lemma handle_no_intent_witness :
  orchestrator.handle
    (fun _ _ => Ok {[ "summary" := VStr "report" ]})
    (fun _ => Ok {[ "summary" := VStr "audit" ]})
    {| orchestrator.query := "Hello there"; orchestrator.propertyId := Some "123" |}
  = (orchestrator.no_intent
       {| orchestrator.query := "Hello there"; orchestrator.propertyId := Some "123" |},
     []).
Proof.
  refine (proj1 (handle_no_intent _ _ _ _ _)); reflexivity.
Defined.

(** A question about titles, with no identifier, answered by an SEO agent
    that raises. *)
Lemma handle_seo_only_witness :
  orchestrator.handle
    (fun _ _ => Ok {[ "summary" := VStr "report" ]})
    (fun _ => Raise (OtherException "table unavailable"))
    {| orchestrator.query := "Which TITLE tags are too long?";
       orchestrator.propertyId := None |}
  = ({[ "error" := VStr "SEO processing failed: table unavailable" ]},
     [orchestrator.seo_agent_run "Which TITLE tags are too long?"]).
Proof.
  refine (handle_seo_only _ _ _ _ _); reflexivity.
Defined.

(** A question about traffic, with an identifier. *)
Lemma handle_analytics_only_witness :
  orchestrator.handle
    (fun _ _ => Ok {[ "summary" := VStr "report" ]})
    (fun _ => Ok {[ "summary" := VStr "audit" ]})
    {| orchestrator.query := "Traffic last week"; orchestrator.propertyId := Some "123" |}
  = ({[ "summary" := VStr "report" ]},
     [orchestrator.ga4_agent_run "Traffic last week" "123"]).
Proof.
  refine (handle_analytics_only _ _ _ "123" _ _ _ _); try reflexivity. discriminate.
Defined.

(** Sessions and titles, the analytics agent raising. *)
Lemma handle_merges_whatever_agents_do_witness :
  (orchestrator.handle
     (fun _ _ => Raise (OtherException "quota exceeded"))
     (fun _ => Ok {[ "summary" := VStr "audit" ]})
     {| orchestrator.query := "sessions and title"; orchestrator.propertyId := Some "123" |}).2
  = [ orchestrator.ga4_agent_run "sessions and title" "123";
      orchestrator.seo_agent_run "sessions and title" ].
Proof.
  refine (proj1 (handle_merges_whatever_agents_do _ _ _ "123" _ _ _ _));
    try reflexivity. discriminate.
Defined.

(** ** Intent and dispatch *)
Section intents.
Import llm orchestrator.
Variable ga4_run : string -> string -> result Response.
Variable seo_run : string -> result Response.

(** The three words by which the SEO parser picks a specific analysis are
    among the keywords of the SEO intent. *)
Lemma specific_analysis_has_seo_intent (query : string) :
  analysis_type (parse_seo_query query) <> "general_seo_health" ->
  _detect_seo_intent (lower query) = true.
Proof.
  unfold parse_seo_query, _detect_seo_intent, any_in. cbn [existsb].
  destruct (contains "title" (lower query)); [done|].
  destruct (contains "meta" (lower query)); [done|].
  destruct (contains "https" (lower query)); [|done].
  intros _. cbn [andb orb]. by rewrite !orb_true_r.
Qed.

(** Whenever the SEO parser would pick a specific analysis for a query, the
    orchestrator does invoke the SEO agent on it, with the query as typed
    and after the analytics agent if that one runs too, unless it stops at
    the missing [propertyId] of an analytics intent.  So the words [title],
    [meta] and [https] never lead to the could-not-determine-intent
    answer. *)
Theorem handle_reaches_specific_analysis (req : QueryRequest) :
  analysis_type (parse_seo_query (query req)) <> "general_seo_health" ->
  _detect_ga4_intent (lower (query req)) && falsy (propertyId req) = false ->
  (handle ga4_run seo_run req).2
  = (if _detect_ga4_intent (lower (query req))
     then [ga4_agent_run (query req) (default "" (propertyId req))]
     else []) ++ [seo_agent_run (query req)].
Proof.
  intros Hseo%specific_analysis_has_seo_intent Hguard.
  unfold handle. rewrite Hseo, Hguard.
  by destruct (_detect_ga4_intent (lower (query req))).
Qed.

End intents.

(** A question about meta descriptions, with no identifier. *)
Lemma handle_reaches_specific_analysis_witness :
  (orchestrator.handle
     (fun _ _ => Ok {[ "summary" := VStr "report" ]})
     (fun _ => Ok {[ "summary" := VStr "audit" ]})
     {| orchestrator.query := "Missing META descriptions";
        orchestrator.propertyId := None |}).2
  = [orchestrator.seo_agent_run "Missing META descriptions"].
Proof.
  refine (handle_reaches_specific_analysis _ _ _ _ _); [by vm_compute|reflexivity].
Defined.

(** ** The analytics agent *)
Section analytics_agent.
Import ga4_validation date_parser llm ga4_agent.
Context {Client Rng : Type}.
Variable run_report : Client -> RunReportRequest -> result Report.
Variable randint : Z -> Z -> Rng -> Z * Rng.
Variable choice : list string -> Rng -> string * Rng.
Variable strftime_days_ago : nat -> string.

(** The constructor returns an agent only when the credentials file exists
    and loads, and the agent is then in the live state; in every other case
    it raises. *)
Theorem init_Ok_iff (credentials_file : option (result Client)) (agent : GA4Agent) :
  init credentials_file = Ok agent <->
  exists c, credentials_file = Some (Ok c) /\
            agent = {| client := Some c; credentials_valid := true |}.
Proof.
  unfold init. destruct credentials_file as [[c|e]|];
    rewrite ?load_global_logger; cbn [bind]; split.
  - intros [= <-]. by exists c.
  - by intros (c' & [= <-] & ->).
  - discriminate.
  - by intros (c' & [=] & _).
  - discriminate.
  - by intros (c' & [=] & _).
Qed.

(** Whatever the language model delivers, the plan that comes out of
    [parse_analytics_query] has the three keys the agent reads. *)
Lemma parse_analytics_query_keys (response : completion) (query : string) :
  exists ms ds dr,
    metrics (parse_analytics_query response query) = Some ms /\
    dimensions (parse_analytics_query response query) = Some ds /\
    date_range (parse_analytics_query response query) = Some dr.
Proof. destruct response as [plan|e]; by eexists _, _, _. Qed.

Lemma validate_plan_raises_ValueError (plan : Plan) (e : exn) :
  validate_plan plan = Raise e -> exists msg, e = ValueError msg.
Proof.
  unfold validate_plan. destruct (plan_errors plan); [discriminate|].
  intros [= <-]. eauto.
Qed.

(** When validation fails, [run] returns the validation envelope, which
    carries the message and both allowlists and has no rows.  The envelope
    is the same whatever the state of the agent, the backend and the random
    generator are. *)
Theorem run_validation_envelope (self : GA4Agent) (response : completion) (g : Rng)
    (query property_id : string) (e : exn) :
  validate_plan (parse_analytics_query response query) = Raise e ->
  run run_report randint choice strftime_days_ago self response g query property_id
    = validation_error e query property_id /\
  validation_error e query property_id !! "error"
    = Some (VStr ("Query validation failed: " +:+ str_of_exn e)) /\
  validation_error e query property_id !! "allowed_metrics"
    = Some (VStrs (elements ALLOWED_METRICS)) /\
  validation_error e query property_id !! "allowed_dimensions"
    = Some (VStrs (elements ALLOWED_DIMENSIONS)) /\
  validation_error e query property_id !! "rows" = None.
Proof.
  intros Hraise. destruct (validate_plan_raises_ValueError _ _ Hraise) as [msg ->].
  split; [unfold run; by rewrite Hraise|]. unfold validation_error.
  split; [by rewrite lookup_insert_eq|].
  split; [by rewrite !lookup_insert_ne, lookup_insert_eq by done|].
  split; [by rewrite !lookup_insert_ne, lookup_insert_eq by done|].
  by rewrite !lookup_insert_ne, lookup_empty by done.
Qed.

(** A plan of the language model that names a metric outside the allowlist
    is answered with the validation envelope, and its message shows the
    metric. *)
Lemma run_rejects_unlisted_metric (self : GA4Agent) (plan : Plan) (g : Rng)
    (query property_id : string) (ms : list string) (m : string) :
  metrics plan = Some ms -> m ∈ ms -> m ∉ ALLOWED_METRICS ->
  exists msg,
    run run_report randint choice strftime_days_ago self (parsed plan) g query property_id
      !! "error" = Some (VStr ("Query validation failed: " +:+ msg)) /\
    contains (repr_str m) msg = true /\
    run run_report randint choice strftime_days_ago self (parsed plan) g query property_id
      !! "rows" = None.
Proof.
  intros Hms Hin Hbad.
  set (plan' := parse_analytics_query (parsed plan) query).
  assert (metrics plan' = Some ms) as Hms' by (unfold plan'; cbn; by rewrite Hms).
  assert (filter (fun m => m ∉ ALLOWED_METRICS) ms <> []) as Hne.
  { intros Hnil. by apply (filter_nil_not_elem_of _ _ m Hnil). }
  pose proof (plan_errors_metrics plan' ms Hms' Hne) as Herr.
  exists ("GA4 plan validation failed: " +:+ join "; " (plan_errors plan')).
  assert (validate_plan plan'
    = Raise (ValueError ("GA4 plan validation failed: " +:+ join "; " (plan_errors plan'))))
    as Hraise.
  { unfold validate_plan. destruct (plan_errors plan') eqn:He; [|done].
    by apply elem_of_nil in Herr. }
  unfold run. fold plan'. rewrite Hraise. cbn [bind]. unfold validation_error.
  split; [by rewrite lookup_insert_eq|]. split.
  - apply contains_append_r. eapply contains_join; [exact Herr|].
    apply contains_append_r, contains_repr_list, list_elem_of_filter. done.
  - by rewrite !lookup_insert_ne, lookup_empty by done.
Qed.

(** With live credentials and a valid plan whose date label resolves, the
    request sent to the backend carries the plan's dimensions and metrics,
    the property path and the resolved date range; when the backend answers
    with no rows, [run]
    returns the no-data report: an empty [rows], the explanation, and no
    [error] key. *)
Theorem run_no_data (self : GA4Agent) (c : Client) (response : completion) (g : Rng)
    (query property_id : string) (v : Validation) (ms ds : list string) (dr : string)
    (range : DateRange) :
  credentials_valid self = true ->
  client self = Some c ->
  validate_plan (parse_analytics_query response query) = Ok v ->
  metrics (parse_analytics_query response query) = Some ms ->
  dimensions (parse_analytics_query response query) = Some ds ->
  date_range (parse_analytics_query response query) = Some dr ->
  parse_date_range dr = Ok range ->
  run_report c {| property := "properties/" +:+ property_id;
                  request_dimensions := ds;
                  request_metrics := ms;
                  date_ranges := [range] |}
    = Ok {| report_rows := [] |} ->
  let r := run run_report randint choice strftime_days_ago self response g
               query property_id in
  r !! "rows" = Some (VList []) /\
  r !! "error" = None /\
  r !! "summary"
    = Some (VStr ("No data available for the selected period ("
                    +:+ get_human_readable_range range +:+ ").")) /\
  r !! "metrics" = Some (VStrs ms) /\
  r !! "dimensions" = Some (VStrs ds) /\
  r !! "property_id" = Some (VStr property_id).
Proof.
  intros Hvalid Hclient Hok Hms Hds Hdr Hrange Hreport r. subst r.
  unfold run. rewrite Hok. cbn [bind]. unfold _execute_ga4_request.
  rewrite Hvalid, Hclient, Hds, Hms, Hdr. cbn [getitem bind].
  rewrite Hrange. cbn [bind]. rewrite Hreport.
  cbn [bind report_rows]. unfold _empty_data_response.
  rewrite Hds, Hms, Hdr. cbn [getitem bind]. rewrite Hrange. cbn [bind].
  repeat split; by rewrite ?lookup_insert_ne, ?lookup_insert_eq, ?lookup_empty by done.
Qed.

(** When the backend call raises (the agent live, the plan valid and its
    date label resolved), [run] still returns a [dict]: the
    processing envelope, or, for a [ValueError], the validation envelope,
    since the [except ValueError] clause comes first and covers the whole
    body. *)
Theorem run_backend_fault (self : GA4Agent) (c : Client) (response : completion) (g : Rng)
    (query property_id : string) (v : Validation) (ms ds : list string) (dr : string)
    (range : DateRange) (e : exn) :
  credentials_valid self = true ->
  client self = Some c ->
  validate_plan (parse_analytics_query response query) = Ok v ->
  metrics (parse_analytics_query response query) = Some ms ->
  dimensions (parse_analytics_query response query) = Some ds ->
  date_range (parse_analytics_query response query) = Some dr ->
  parse_date_range dr = Ok range ->
  run_report c {| property := "properties/" +:+ property_id;
                  request_dimensions := ds;
                  request_metrics := ms;
                  date_ranges := [range] |}
    = Raise e ->
  run run_report randint choice strftime_days_ago self response g query property_id
    = match e with
      | ValueError _ => validation_error e query property_id
      | _ => processing_error e query property_id
      end.
Proof.
  intros Hvalid Hclient Hok Hms Hds Hdr Hrange Hreport.
  unfold run. rewrite Hok. cbn [bind]. unfold _execute_ga4_request.
  rewrite Hvalid, Hclient, Hds, Hms, Hdr. cbn [getitem bind].
  rewrite Hrange. cbn [bind]. rewrite Hreport.
  by destruct e.
Qed.

(** *** Formatting rows *)

(** Pairing names and values by position succeeds exactly when there are no
    more values than names; a value without a name raises [IndexError]. *)
Lemma dict_by_position_Ok_iff (names values : list string) (acc : gmap string Value) :
  ((exists d, dict_by_position names values acc = Ok d)
   <-> (length values <= length names)%nat) /\
  ((length names < length values)%nat ->
   dict_by_position names values acc = Raise (IndexError "list index out of range")).
Proof.
  revert names acc. induction values as [|v values IH]; intros names acc.
  - split; [|simpl; lia]. split; [simpl; lia|intros _; destruct names; by eexists].
  - destruct names as [|n names]; simpl.
    + split; [|done]. split; [by intros [d [=]]|lia].
    + destruct (IH names (<[n := VStr v]> acc)) as [IH1 IH2].
      split; [rewrite IH1; lia|]. intros Hlt. apply IH2. lia.
Qed.

(** With distinct names, the value at each position is found under the name
    at that position, and only the names that got a value are bound. *)
Lemma dict_by_position_lookup (names values : list string) (acc : gmap string Value) :
  NoDup names -> (length values <= length names)%nat ->
  exists d,
    dict_by_position names values acc = Ok d /\
    (forall i n v, names !! i = Some n -> values !! i = Some v -> d !! n = Some (VStr v)) /\
    (forall n, n ∉ take (length values) names -> d !! n = acc !! n).
Proof.
  revert names acc. induction values as [|v values IH]; intros names acc Hnd Hlen.
  - exists acc. split; [by destruct names|]. split; [|done].
    intros i n v _ Hv. by rewrite lookup_nil in Hv.
  - destruct names as [|n names]; [simpl in Hlen; lia|].
    apply NoDup_cons in Hnd as [Hn Hnd]. simpl in Hlen.
    destruct (IH names (<[n := VStr v]> acc) Hnd ltac:(lia)) as (d & Hd & Hpos & Hrest).
    exists d. split; [done|]. split.
    + intros [|i] n' v' Hn' Hv'; simpl in *.
      * injection Hn' as <-. injection Hv' as <-.
        rewrite Hrest, lookup_insert_eq; [done|].
        intros (j & Hj & _)%elem_of_take. apply Hn. by eapply list_elem_of_lookup_2.
      * by eapply Hpos.
    + intros n' Hn'. apply not_elem_of_cons in Hn' as [Hne Hn'].
      rewrite (Hrest n' Hn'). by rewrite lookup_insert_ne.
Qed.

(** The [dict] comprehensions of [_format_response], which pair the values
    of a row with the names of the plan by position.  The pairing returns a
    [dict] exactly when there are no more values than names, and raises
    [IndexError] when there are more.  With distinct names, the [dict] it
    returns holds the value at each position under the name at that
    position, and binds no name but those that got a value. *)
Theorem dict_by_position_positional (names values : list string) :
  ((exists d, dict_by_position names values ∅ = Ok d)
   <-> (length values <= length names)%nat) /\
  ((length names < length values)%nat ->
   dict_by_position names values ∅ = Raise (IndexError "list index out of range")) /\
  (NoDup names ->
   forall d, dict_by_position names values ∅ = Ok d ->
     (forall i n v, names !! i = Some n -> values !! i = Some v ->
                    d !! n = Some (VStr v)) /\
     (forall n, n ∉ take (length values) names -> d !! n = None)).
Proof.
  destruct (dict_by_position_Ok_iff names values ∅) as [Hiff Hraise].
  split; [exact Hiff|]. split; [exact Hraise|].
  intros Hnd d Hd.
  assert (length values <= length names)%nat as Hlen by (apply Hiff; eauto).
  destruct (dict_by_position_lookup names values ∅ Hnd Hlen) as (d' & Hd' & Hpos & Hrest).
  assert (d' = d) as -> by congruence.
  split; [done|]. intros n Hn. by rewrite (Hrest n Hn).
Qed.

Lemma collect_Ok_iff {A} (l : list (result A)) :
  (exists l', collect l = Ok l') <-> Forall (fun r => exists a, r = Ok a) l.
Proof.
  induction l as [|r l IH]; simpl.
  - split; [constructor|by eexists].
  - rewrite Forall_cons, <- IH. destruct r as [a|e]; simpl.
    + destruct (collect l) as [l'|e]; simpl.
      * split; [intros _; split; by eexists|by eexists].
      * split; [by intros [? [=]]|by intros [_ [? [=]]]].
    + split; [by intros [? [=]]|by intros [[? [=]] _]].
Qed.

Lemma collect_length {A} (l : list (result A)) (l' : list A) :
  collect l = Ok l' -> length l' = length l.
Proof.
  revert l'. induction l as [|r l IH]; intros l'; simpl.
  - by intros [= <-].
  - destruct r as [a|e]; [|done]. simpl. destruct (collect l) as [l0|e]; [|done].
    simpl. intros [= <-]. simpl. by rewrite (IH l0).
Qed.

Lemma format_row_Ok_iff (ds ms : list string) (row : ReportRow) :
  (exists value, format_row ds ms row = Ok value) <->
  (length (dimension_values row) <= length ds)%nat /\
  (length (metric_values row) <= length ms)%nat.
Proof.
  unfold format_row.
  rewrite <- (proj1 (dict_by_position_Ok_iff ds (dimension_values row) ∅)).
  rewrite <- (proj1 (dict_by_position_Ok_iff ms (metric_values row) ∅)).
  destruct (dict_by_position ds _ ∅) as [dims|e]; simpl.
  - destruct (dict_by_position ms _ ∅) as [mets|e]; simpl.
    + split; [intros _; split; by eexists|by eexists].
    + split; [by intros [? [=]]|by intros [_ [? [=]]]].
  - split; [by intros [? [=]]|by intros [[? [=]] _]].
Qed.

(** With the three keys in the plan, [_format_response] succeeds exactly
    when no row has more dimension values than the plan has dimensions or
    more metric values than it has metrics (a longer row raises
    [IndexError]) and the date label of the plan resolves; [total_rows] and
    the length of [rows] are then the number of rows the backend
    returned. *)
Theorem _format_response_rows (response : Report) (plan : Plan) (original_query : string)
    (ms ds : list string) (dr : string) :
  metrics plan = Some ms -> dimensions plan = Some ds -> date_range plan = Some dr ->
  ((exists d, _format_response response plan original_query = Ok d) <->
   Forall (fun row => (length (dimension_values row) <= length ds)%nat /\
                      (length (metric_values row) <= length ms)%nat)
          (report_rows response) /\
   exists range, parse_date_range dr = Ok range) /\
  (forall d, _format_response response plan original_query = Ok d ->
     d !! "total_rows" = Some (VInt (Z.of_nat (length (report_rows response)))) /\
     d !! "query" = Some (VStr original_query) /\
     exists rows, d !! "rows" = Some (VList rows) /\
                  length rows = length (report_rows response)).
Proof.
  intros Hms Hds Hdr. unfold _format_response. rewrite Hms, Hds, Hdr. cbn [getitem bind].
  assert ((exists rows, collect (format_row ds ms <$> report_rows response) = Ok rows) <->
          Forall (fun row => (length (dimension_values row) <= length ds)%nat /\
                             (length (metric_values row) <= length ms)%nat)
                 (report_rows response)) as Hrows.
  { rewrite collect_Ok_iff, Forall_fmap. apply Forall_iff. intros row.
    apply format_row_Ok_iff. }
  destruct (collect (format_row ds ms <$> report_rows response)) as [rows|e] eqn:Hc;
    cbn [bind].
  - destruct (parse_date_range dr) as [range|e] eqn:Hrange; cbn [bind].
    + split.
      * rewrite <- Hrows. split; [intros _; split; by eexists|by eexists].
      * intros d [= <-]. apply collect_length in Hc. rewrite length_fmap in Hc.
        rewrite Hc.
        split; [by rewrite !lookup_insert_ne, lookup_insert_eq by done|].
        split; [by rewrite !lookup_insert_ne, lookup_insert_eq by done|].
        exists rows. split; [|done].
        by rewrite !lookup_insert_ne, lookup_insert_eq by done.
    + split; [|done]. split; [by intros [? [=]]|by intros [_ [? [=]]]].
  - split; [|done]. rewrite <- Hrows.
    split; [by intros [? [=]]|by intros [[? [=]] _]].
Qed.

(** *** The mock data *)

Lemma for_each_Forall {A B S} (P : B -> Prop) (f : A -> S -> B * S) (l : list A) (s : S) :
  (forall a s, P (f a s).1) -> Forall P (for_each f l s).1.
Proof.
  intros HP. revert s. induction l as [|a l IH]; intros s; [constructor|].
  simpl. pose proof (HP a s) as Ha. destruct (f a s) as [b s1].
  specialize (IH s1). destruct (for_each f l s1) as [bs s2]. by constructor.
Qed.

Lemma for_each_lookup {A B S} (f : A -> S -> B * S) (l : list A) (s : S) (i : nat) (b : B) :
  (for_each f l s).1 !! i = Some b -> exists a s', l !! i = Some a /\ b = (f a s').1.
Proof.
  revert s i. induction l as [|a l IH]; intros s i; [done|].
  simpl. destruct (f a s) as [b0 s1] eqn:Hf. specialize (IH s1).
  destruct (for_each f l s1) as [bs s2]. destruct i as [|i]; simpl.
  - intros [= <-]. exists a, s. by rewrite Hf.
  - intros Hb. destruct (IH i Hb) as (a' & s' & Ha & ->). by exists a', s'.
Qed.

(** The row built for day [i] of the window. *)
Lemma MockResponse_row (ds ms : list string) (g : Rng) (i : nat) (row : ReportRow) :
  report_rows (MockResponse randint choice strftime_days_ago ds ms g).1 !! i = Some row ->
  (i < 7)%nat /\
  exists g1 g2,
    dimension_values row
      = (for_each (mock_dimension_value choice (strftime_days_ago (6 - i))) ds g1).1 /\
    metric_values row = (for_each (mock_metric_value randint) ms g2).1.
Proof.
  unfold MockResponse.
  match goal with |- context [for_each ?f (seq 0 7) g] =>
    set (build := f);
    pose proof (for_each_lookup build (seq 0 7) g i row) as Hlookup;
    destruct (for_each build (seq 0 7) g) as [rows g'] end.
  cbn [fst report_rows] in *. intros Hrow.
  destruct (Hlookup Hrow) as (a & s' & Ha & ->).
  apply lookup_seq in Ha as [-> Hlt]. split; [done|]. cbn [Nat.add].
  unfold build.
  destruct (for_each (mock_dimension_value choice (strftime_days_ago (6 - i))) ds s')
    as [row_data g1] eqn:Hd.
  destruct (for_each (mock_metric_value randint) ms g1) as [metric_data g2] eqn:Hm.
  exists s', g1. cbn. by rewrite Hd, Hm.
Qed.

(** The mock response has one row per day of the seven-day window, oldest
    first and ending today: in row [i], every [date] dimension holds the day
    [6 - i] days ago, and every row has one value per dimension and per
    metric of the plan, whatever the random generator does. *)
Theorem MockResponse_window (ds ms : list string) (g : Rng) :
  length (report_rows (MockResponse randint choice strftime_days_ago ds ms g).1) = 7%nat /\
  (forall i row,
     report_rows (MockResponse randint choice strftime_days_ago ds ms g).1 !! i = Some row ->
     length (dimension_values row) = length ds /\
     length (metric_values row) = length ms /\
     forall j, ds !! j = Some "date" ->
               dimension_values row !! j = Some (strftime_days_ago (6 - i))).
Proof.
  split.
  { unfold MockResponse.
    match goal with |- context [for_each ?f (seq 0 7) g] =>
      pose proof (for_each_length f (seq 0 7) g) as Hlen;
      destruct (for_each f (seq 0 7) g) as [rows g'] end.
    exact Hlen. }
  intros i row Hrow.
  destruct (MockResponse_row ds ms g i row Hrow) as (Hlt & g1 & g2 & -> & ->).
  rewrite !for_each_length. split; [done|]. split; [done|].
  intros j Hj.
  destruct (lookup_lt_is_Some_2
    (for_each (mock_dimension_value choice (strftime_days_ago (6 - i))) ds g1).1 j)
    as [value Hvalue].
  { rewrite for_each_length. by eapply lookup_lt_Some. }
  rewrite Hvalue. f_equal.
  apply for_each_lookup in Hvalue as (dim & s' & Hdim & ->).
  rewrite Hj in Hdim. injection Hdim as <-. reflexivity.
Qed.

(** The mock rows always fit the plan they were built for: when the date
    label of the plan resolves, formatting them cannot raise, and the
    report has seven rows. *)
Theorem MockResponse_formats (plan : Plan) (original_query : string) (g : Rng)
    (ms ds : list string) (dr : string) (range : DateRange) :
  metrics plan = Some ms -> dimensions plan = Some ds -> date_range plan = Some dr ->
  parse_date_range dr = Ok range ->
  exists d rows,
    _format_response (MockResponse randint choice strftime_days_ago ds ms g).1
      plan original_query = Ok d /\
    d !! "total_rows" = Some (VInt 7) /\
    d !! "rows" = Some (VList rows) /\ length rows = 7%nat /\
    d !! "error" = None.
Proof.
  intros Hms Hds Hdr Hrange. unfold _format_response.
  rewrite Hms, Hds, Hdr. cbn [getitem bind].
  set (response := (MockResponse randint choice strftime_days_ago ds ms g).1).
  assert (length (report_rows response) = 7%nat) as Hseven.
  { apply MockResponse_rows. }
  assert (exists rows, collect (format_row ds ms <$> report_rows response) = Ok rows)
    as [rows Hrows].
  { apply collect_Ok_iff, Forall_fmap, Forall_lookup. intros i row Hrow.
    apply format_row_Ok_iff.
    destruct (MockResponse_row ds ms g i row Hrow) as (_ & g1 & g2 & -> & ->).
    rewrite !for_each_length. lia. }
  rewrite Hrows. cbn [bind]. rewrite Hrange. cbn [bind].
  eexists _, rows. split; [reflexivity|].
  apply collect_length in Hrows. rewrite length_fmap, Hseven in Hrows. rewrite Hrows.
  split; [by rewrite !lookup_insert_ne, lookup_insert_eq by done|].
  split; [by rewrite !lookup_insert_ne, lookup_insert_eq by done|].
  split; [done|].
  by rewrite !lookup_insert_ne, lookup_empty by done.
Qed.

End analytics_agent.

(** An agent with live credentials, a model that asks for an unknown
    metric. *)
Lemma run_validation_envelope_witness :
  ga4_agent.run (Client := unit) (Rng := unit)
      (fun _ _ => Ok {| ga4_agent.report_rows := [] |})
      (fun lo _ g => (lo, g)) (fun _ g => ("/", g)) (fun _ => "20240101")
      {| ga4_agent.client := Some tt; ga4_agent.credentials_valid := true |}
      (llm.parsed {| ga4_validation.metrics := Some ["revenue"];
                     ga4_validation.dimensions := Some ["date"];
                     ga4_validation.date_range := Some "last_7_days";
                     ga4_validation.filters := None |})
      tt "revenue by date" "123"
  = ga4_agent.validation_error
      (ValueError "GA4 plan validation failed: Invalid metrics: ['revenue']")
      "revenue by date" "123".
Proof.
  refine (proj1 (run_validation_envelope _ _ _ _ _ _ _ _ _ _ _)).
  vm_compute. reflexivity.
Defined.

(** An agent with live credentials, the fallback plan for sessions by date,
    a backend with no rows for the property. *)
Lemma run_no_data_witness :
  ga4_agent.run (Client := unit) (Rng := unit)
      (fun _ _ => Ok {| ga4_agent.report_rows := [] |})
      (fun lo _ g => (lo, g)) (fun _ g => ("/", g)) (fun _ => "20240101")
      {| ga4_agent.client := Some tt; ga4_agent.credentials_valid := true |}
      (llm.failed (OtherException "no connection")) tt "sessions by date" "123"
    !! "rows" = Some (VList []).
Proof.
  refine (proj1 (run_no_data _ _ _ _ _ tt _ _ _ _
    {| ga4_validation.valid := true; ga4_validation.metrics_count := 1;
       ga4_validation.dimensions_count := 1;
       ga4_validation.validated_at := "ga4_validation.py" |}
    ["sessions"] ["date"] "last_7_days"
    {| date_parser.start_date := "7daysAgo"; date_parser.end_date := "today" |}
    _ _ _ _ _ _ _ _)); reflexivity.
Defined.

(** The same, the backend refusing the property. *)
Lemma run_backend_fault_witness :
  ga4_agent.run (Client := unit) (Rng := unit)
      (fun _ _ => Raise (OtherException "403 permission denied"))
      (fun lo _ g => (lo, g)) (fun _ g => ("/", g)) (fun _ => "20240101")
      {| ga4_agent.client := Some tt; ga4_agent.credentials_valid := true |}
      (llm.failed (OtherException "no connection")) tt "sessions by date" "123"
  = ga4_agent.processing_error (OtherException "403 permission denied")
      "sessions by date" "123".
Proof.
  refine (run_backend_fault _ _ _ _ _ tt _ _ _ _
    {| ga4_validation.valid := true; ga4_validation.metrics_count := 1;
       ga4_validation.dimensions_count := 1;
       ga4_validation.validated_at := "ga4_validation.py" |}
    ["sessions"] ["date"] "last_7_days"
    {| date_parser.start_date := "7daysAgo"; date_parser.end_date := "today" |}
    (OtherException "403 permission denied")
    _ _ _ _ _ _ _ _); reflexivity.
Defined.

(** Two dimensions, two values. *)
Lemma dict_by_position_positional_witness :
  exists d,
    ga4_agent.dict_by_position ["date"; "country"] ["20240101"; "France"] ∅ = Ok d /\
    d !! "country" = Some (VStr "France").
Proof.
  destruct (dict_by_position_positional ["date"; "country"] ["20240101"; "France"])
    as (Hiff & _ & Hpos).
  destruct (proj2 Hiff) as [d Hd]; [simpl; lia|].
  exists d. split; [exact Hd|].
  refine (proj1 (Hpos _ d Hd) 1%nat _ _ eq_refl eq_refl).
  by apply (bool_decide_unpack _).
Defined.

(** One backend row for the plan of sessions by date. *)
Lemma _format_response_rows_witness :
  exists d,
    ga4_agent._format_response
      {| ga4_agent.report_rows :=
           [ {| ga4_agent.dimension_values := ["20240101"];
                ga4_agent.metric_values := ["12"] |} ] |}
      (llm._fallback_plan "sessions by date") "sessions by date" = Ok d /\
    d !! "total_rows" = Some (VInt 1).
Proof.
  destruct (_format_response_rows
      {| ga4_agent.report_rows :=
           [ {| ga4_agent.dimension_values := ["20240101"];
                ga4_agent.metric_values := ["12"] |} ] |}
      (llm._fallback_plan "sessions by date") "sessions by date"
      ["sessions"] ["date"] "last_7_days" eq_refl eq_refl eq_refl)
    as [Hiff Hcount].
  destruct (proj2 Hiff) as [d Hd].
  - split; [repeat constructor|by eexists].
  - exists d. split; [exact Hd|]. by apply Hcount.
Defined.

(** The mock rows for sessions by date. *)
Lemma MockResponse_formats_witness :
  exists d rows,
    ga4_agent._format_response
      (ga4_agent.MockResponse (Rng := unit)
         (fun lo _ g => (lo, g)) (fun _ g => ("/", g)) (fun _ => "20240101")
         ["date"] ["sessions"] tt).1
      (llm._fallback_plan "sessions by date") "sessions by date" = Ok d /\
    d !! "rows" = Some (VList rows) /\ length rows = 7%nat.
Proof.
  destruct (MockResponse_formats (Rng := unit)
      (fun lo _ g => (lo, g)) (fun _ g => ("/", g)) (fun _ => "20240101")
      (llm._fallback_plan "sessions by date") "sessions by date" tt
      ["sessions"] ["date"] "last_7_days"
      {| date_parser.start_date := "7daysAgo"; date_parser.end_date := "today" |}
      eq_refl eq_refl eq_refl eq_refl)
    as (d & rows & Hd & _ & Hrows & Hlen & _).
  exists d, rows. auto.
Defined.

(** ** Normalisation and the numeric labels *)
Section labels.
Import date_parser.

(** What [normalize] does to one character. *)
Lemma normalize_cons (c : ascii) (s : string) :
  normalize (String c s)
  = String (if Ascii.eqb (lower_char c) " " then "_"%char else lower_char c) (normalize s).
Proof. reflexivity. Qed.

Lemma lower_char_idem (c : ascii) : lower_char (lower_char c) = lower_char c.
Proof. destruct c as [[] [] [] [] [] [] [] []]; reflexivity. Qed.

Lemma normalize_char_idem (c : ascii) :
  let n := fun c => if Ascii.eqb (lower_char c) " " then "_"%char else lower_char c in
  n (n c) = n c /\ n (lower_char c) = n c /\
  n (if Ascii.eqb c " " then "_"%char else c) = n c.
Proof. destruct c as [[] [] [] [] [] [] [] []]; repeat split; reflexivity. Qed.

Lemma normalize_char_digit (c : ascii) :
  let n := fun c => if Ascii.eqb (lower_char c) " " then "_"%char else lower_char c in
  is_digit (n c) = is_digit c /\ (is_digit c = true -> n c = c /\ is_space c = false).
Proof.
  destruct c as [[] [] [] [] [] [] [] []]; split; try reflexivity;
    intros H; try discriminate H; split; reflexivity.
Qed.

Lemma lower_idem (s : string) : lower (lower s) = lower s.
Proof. induction s as [|c s IH]; [done|]. simpl. by rewrite lower_char_idem, IH. Qed.

Lemma normalize_idem (s : string) : normalize (normalize s) = normalize s.
Proof.
  induction s as [|c s IH]; [done|]. rewrite !normalize_cons, IH.
  f_equal. apply (normalize_char_idem c).
Qed.

Lemma normalize_lower (s : string) : normalize (lower s) = normalize s.
Proof.
  induction s as [|c s IH]; [done|].
  change (lower (String c s)) with (String (lower_char c) (lower s)).
  rewrite !normalize_cons, IH. f_equal. apply (normalize_char_idem c).
Qed.

Lemma normalize_replace (s : string) : normalize (replace_char " " "_" s) = normalize s.
Proof.
  induction s as [|c s IH]; [done|].
  change (replace_char " " "_" (String c s))
    with (String (if Ascii.eqb c " " then "_"%char else c) (replace_char " " "_" s)).
  rewrite !normalize_cons, IH. f_equal. apply (normalize_char_idem c).
Qed.

Lemma normalize_append (s t : string) : normalize (s +:+ t) = normalize s +:+ normalize t.
Proof.
  induction s as [|c s IH]; [done|]. by rewrite append_cons, !normalize_cons, IH.
Qed.

Lemma normalize_digits (ds : string) : all_chars is_digit ds = true -> normalize ds = ds.
Proof.
  induction ds as [|c ds IH]; [done|]. simpl. intros [Hc Hds]%andb_true_iff.
  rewrite normalize_cons, (IH Hds). f_equal. by apply (normalize_char_digit c).
Qed.

(** The resolver reads its argument only through the normalised label:
    normalising a label beforehand, changing its case, or writing
    underscores for spaces does not change the range. *)
Theorem parse_date_range_normalized (date_label : string) :
  parse_date_range (normalize date_label) = parse_date_range date_label /\
  parse_date_range (lower date_label) = parse_date_range date_label /\
  parse_date_range (replace_char " " "_" date_label) = parse_date_range date_label.
Proof.
  unfold parse_date_range.
  by rewrite normalize_idem, normalize_lower, normalize_replace.
Qed.

Lemma match_unit_digit (c : ascii) (s : string) :
  is_digit c = true -> match_unit (String c s) = None.
Proof.
  intros Hc. destruct c as [[] [] [] [] [] [] [] []];
    vm_compute in Hc; try discriminate Hc; reflexivity.
Qed.

(** A run of digits is taken whole: giving digits back cannot help, since
    what follows a shorter run starts with a digit. *)
Lemma match_digits_run (acc ds r : string) :
  all_chars is_digit ds = true ->
  match r with String c _ => is_digit c = false | EmptyString => True end ->
  match_digits acc (ds +:+ r)
  = match match_spaces r with
    | Some u => Some (acc +:+ ds, u)
    | None => None
    end.
Proof.
  revert acc. induction ds as [|c ds IH]; intros acc Hds Hr.
  - change ("" +:+ r) with r. rewrite append_nil_r.
    destruct r as [|c r]; [reflexivity|]. rewrite match_digits_cons, Hr. reflexivity.
  - simpl in Hds. apply andb_true_iff in Hds as [Hc Hds].
    rewrite append_cons, match_digits_cons, Hc. cbv zeta.
    rewrite (IH (acc +:+ String c "") Hds Hr), append_assoc.
    change (String c "" +:+ ds) with (String c ds).
    destruct (match_spaces r) as [u|]; [reflexivity|].
    rewrite match_spaces_cons.
    destruct (proj2 (normalize_char_digit c) Hc) as [_ ->].
    by rewrite (match_unit_digit c _ Hc).
Qed.

Lemma match_spaces_unit (u rest : string) :
  u ∈ ["day"; "week"; "month"] ->
  match_spaces (u +:+ rest) = Some u /\
  match u +:+ rest with String c _ => is_digit c = false | EmptyString => True end.
Proof.
  intros Hu.
  assert (match_unit (u +:+ rest) = Some u) as Hunit.
  { unfold match_unit. elem_cases Hu;
      repeat match goal with |- context [String.prefix ?p (?w +:+ rest)] =>
        first [ rewrite (proj2 (prefix_iff p (w +:+ rest)) (ex_intro _ rest eq_refl))
              | replace (String.prefix p (w +:+ rest)) with false by reflexivity ]
      end; reflexivity. }
  elem_cases Hu; (split; [|reflexivity]);
    match goal with |- match_spaces (?w +:+ rest) = _ =>
      change (match_spaces (w +:+ rest)) with (match_unit (w +:+ rest)); exact Hunit
    end.
Qed.

Lemma predefined_digit (c : ascii) (s : string) :
  is_digit c = true -> predefined (String c s) = None.
Proof.
  intros Hc. apply predefined_None. unfold predefined_labels. intros Hin.
  rewrite ?elem_of_cons, elem_of_nil in Hin.
  destruct_or!; try done;
    match goal with H : String c s = _ |- _ => injection H as -> _; discriminate Hc end.
Qed.

(** A number written right before its unit, as in [5days] or [12weeks], is
    read in full (leading zeros included), whatever follows the unit: the
    resolver converts the whole run of digits, multiplies by 1, 7 or 30, and
    writes the day count into the start token; the end token is [today].
    With a run of at most 4298 digits both conversions are within the
    limit, and the range is returned; with a run of more than 4300 digits
    the first conversion raises [ValueError]. *)
Theorem parse_compact_numeric (ds u rest : string) :
  ds <> "" -> all_chars is_digit ds = true -> u ∈ ["day"; "week"; "month"] ->
  let factor := (if String.eqb u "day" then 1
                 else if String.eqb u "week" then 7 else 30)%N in
  parse_date_range (ds +:+ u +:+ rest) =
    bind (int_of_str ds) (fun number =>
    bind (str_of_int (number * factor)) (fun text =>
    Ok {| start_date := text +:+ "daysAgo"; end_date := "today" |})) /\
  ((String.length ds + 2 <= int_max_str_digits)%nat ->
   parse_date_range (ds +:+ u +:+ rest) =
     Ok {| start_date := pretty (int_of_digits ds * factor)%N +:+ "daysAgo";
           end_date := "today" |}) /\
  ((int_max_str_digits < String.length ds)%nat ->
   exists msg, parse_date_range (ds +:+ u +:+ rest) = Raise (ValueError msg)).
Proof.
  intros Hne Hds Hu factor.
  assert (parse_date_range (ds +:+ u +:+ rest) =
            bind (int_of_str ds) (fun number =>
            bind (str_of_int (number * factor)) (fun text =>
            Ok {| start_date := text +:+ "daysAgo"; end_date := "today" |}))) as ->;
    [|split; [done|split]].
  2:{ intros Hlen. rewrite int_of_str_Ok by lia. cbn [bind].
      pose proof (int_of_digits_lt ds Hds) as Hvalue.
      assert (int_of_digits ds * factor < 10 ^ N.of_nat (S (String.length ds + 1)))%N
        as Hdays.
      { assert (factor <= 30)%N
          by (subst factor; elem_cases Hu; cbn [String.eqb Ascii.eqb Bool.eqb]; lia).
        replace (N.of_nat (S (String.length ds + 1)))
          with (N.succ (N.succ (N.of_nat (String.length ds)))) by lia.
        rewrite !N.pow_succ_r'. nia. }
      apply length_pretty_N in Hdays. by rewrite str_of_int_Ok by lia. }
  2:{ intros Hlen. unfold int_of_str.
      destruct (Nat.ltb_spec int_max_str_digits (String.length ds)); [|lia].
      by eexists. }
  pose proof Hds as Hds0. unfold parse_date_range.
  assert (normalize (ds +:+ u +:+ rest) = ds +:+ u +:+ normalize rest) as ->.
  { rewrite !normalize_append, (normalize_digits ds Hds).
    do 2 f_equal. by elem_cases Hu. }
  destruct ds as [|c ds]; [done|]. simpl in Hds.
  apply andb_true_iff in Hds as [Hc Hds].
  rewrite append_cons, (predefined_digit c _ Hc).
  assert (re_search (String c (ds +:+ u +:+ normalize rest)) = Some (String c ds, u)) as ->.
  { destruct (match_spaces_unit u (normalize rest) Hu) as [Hspaces Hhead].
    change (re_search (String c (ds +:+ u +:+ normalize rest)))
      with (match match_here (String c (ds +:+ u +:+ normalize rest)) with
            | Some r => Some r
            | None => re_search (ds +:+ u +:+ normalize rest)
            end).
    unfold match_here. rewrite Hc, (match_digits_run _ ds _ Hds Hhead), Hspaces.
    reflexivity. }
  destruct (int_of_str (String c ds)) as [number|e]; [|done]. cbn [bind].
  subst factor. elem_cases Hu; cbn [String.eqb Ascii.eqb Bool.eqb];
    by rewrite ?N.mul_1_r.
Qed.

Lemma all_chars_append (p : ascii -> bool) (s t : string) :
  all_chars p (s +:+ t) = all_chars p s && all_chars p t.
Proof.
  induction s as [|c s IH]; [done|]. rewrite append_cons. simpl.
  by rewrite IH, andb_assoc.
Qed.

Lemma re_search_no_digit (s : string) :
  all_chars (fun c => negb (is_digit c)) s = true -> re_search s = None.
Proof.
  induction s as [|c s IH]; [done|]. simpl.
  intros [Hc Hs]%andb_true_iff. apply negb_true_iff in Hc. rewrite Hc. by apply IH.
Qed.

Lemma normalize_no_digit (s : string) :
  all_chars (fun c => negb (is_digit c)) (normalize s)
  = all_chars (fun c => negb (is_digit c)) s.
Proof.
  induction s as [|c s IH]; [done|]. rewrite normalize_cons. simpl.
  rewrite IH. f_equal. f_equal. apply (normalize_char_digit c).
Qed.

(** A number separated from its unit by a space, the form the comment in
    the code gives ([5 days], [3 weeks]), is not read as a number: the
    space becomes an underscore before the pattern is tried, so with no
    further digit in the label the range is the default one. *)
Theorem parse_spaced_numeric (ds u rest : string) :
  ds <> "" -> all_chars is_digit ds = true -> u ∈ ["day"; "week"; "month"] ->
  all_chars (fun c => negb (is_digit c)) rest = true ->
  parse_date_range (ds +:+ " " +:+ u +:+ rest)
  = Ok {| start_date := "7daysAgo"; end_date := "today" |}.
Proof.
  intros Hne Hds Hu Hrest. unfold parse_date_range.
  assert (normalize (ds +:+ " " +:+ u +:+ rest) = ds +:+ "_" +:+ u +:+ normalize rest) as ->.
  { rewrite !normalize_append, (normalize_digits ds Hds).
    do 3 f_equal. by elem_cases Hu. }
  assert (re_search ("_" +:+ u +:+ normalize rest) = None) as Htail.
  { apply re_search_no_digit. rewrite !all_chars_append, normalize_no_digit, Hrest.
    by elem_cases Hu. }
  assert (re_search (ds +:+ "_" +:+ u +:+ normalize rest) = None) as Hsearch.
  { clear Hne. induction ds as [|c ds IH]; [exact Htail|].
    simpl in Hds. apply andb_true_iff in Hds as [Hc Hds].
    rewrite append_cons.
    change (re_search (String c (ds +:+ "_" +:+ u +:+ normalize rest)))
      with (match match_here (String c (ds +:+ "_" +:+ u +:+ normalize rest)) with
            | Some r => Some r
            | None => re_search (ds +:+ "_" +:+ u +:+ normalize rest)
            end).
    unfold match_here. rewrite Hc, (match_digits_run _ ds _ Hds); [|reflexivity].
    rewrite (IH Hds). reflexivity. }
  destruct ds as [|c ds]; [done|]. simpl in Hds.
  apply andb_true_iff in Hds as [Hc _].
  rewrite append_cons in *. by rewrite (predefined_digit c _ Hc), Hsearch.
Qed.

(** The resolver only produces relative tokens: a range it returns is
    [yesterday] to [yesterday] exactly for the label [yesterday], and in
    every other case it ends [today] and starts [today] or a whole number of
    days ago. *)
Theorem parse_date_range_tokens (date_label : string) (r : DateRange) :
  parse_date_range date_label = Ok r ->
  (normalize date_label = "yesterday" /\
   r = {| start_date := "yesterday"; end_date := "yesterday" |}) \/
  (normalize date_label <> "yesterday" /\
   end_date r = "today" /\
   (start_date r = "today" \/
    exists days : N, start_date r = pretty days +:+ "daysAgo")).
Proof.
  unfold parse_date_range, predefined.
  repeat (case_bool_decide;
    [ intros [= <-];
      match goal with H : _ ∈ _ |- _ => elem_cases H end;
      first [ left; split; [done|reflexivity]
            | right; split; [congruence|]; split; [reflexivity|];
              first [ by left
                    | right;
                      first [ by exists 7%N | by exists 14%N | by exists 30%N
                            | by exists 90%N | by exists 365%N ] ] ]
    | ]).
  assert (normalize date_label <> "yesterday") as Hne.
  { intros Heq. match goal with H : _ ∉ ["yesterday"] |- _ => apply H end.
    rewrite Heq. apply list_elem_of_here. }
  destruct (re_search (normalize date_label)) as [[g1 g2]|].
  - destruct (int_of_str g1) as [number|]; [|discriminate]. cbn [bind].
    match goal with |- context [str_of_int ?d] =>
      destruct (str_of_int d) as [text|] eqn:Htext; [|discriminate] end.
    cbn [bind]. intros [= <-]. right. split; [done|]. split; [reflexivity|]. right.
    unfold str_of_int in Htext.
    destruct (Nat.ltb _ _); [discriminate|]. injection Htext as <-. by eexists.
  - intros [= <-]. right. split; [done|]. split; [reflexivity|]. right. by exists 7%N.
Qed.

End labels.

(** [007days] *)
Lemma parse_compact_numeric_witness :
  date_parser.parse_date_range "007days ago"
  = Ok {| date_parser.start_date := "7daysAgo"; date_parser.end_date := "today" |}.
Proof.
  refine (proj1 (parse_compact_numeric "007" "day" "s ago" _ _ _)).
  - discriminate.
  - reflexivity.
  - by apply (bool_decide_unpack _).
Defined.

(** [12 weeks] *)
Lemma parse_spaced_numeric_witness :
  date_parser.parse_date_range "12 weeks"
  = Ok {| date_parser.start_date := "7daysAgo"; date_parser.end_date := "today" |}.
Proof.
  refine (parse_spaced_numeric "12" "week" "s" _ _ _ _).
  - discriminate.
  - reflexivity.
  - by apply (bool_decide_unpack _).
  - reflexivity.
Defined.

(** A label of the table. *)
Lemma parse_date_range_tokens_witness :
  exists r, date_parser.parse_date_range "Last Quarter" = Ok r /\
            date_parser.end_date r = "today".
Proof.
  eexists. split; [by vm_compute|].
  destruct (parse_date_range_tokens "Last Quarter" _ eq_refl)
    as [[Hlabel _]|(_ & Hend & _)].
  - discriminate Hlabel.
  - exact Hend.
Defined.

(** ** Descriptions of date ranges *)
Section descriptions.
Import date_parser.

Lemma append_inj_r (s1 s2 t : string) : s1 +:+ t = s2 +:+ t -> s1 = s2.
Proof.
  revert s2. induction s1 as [|c s1 IH]; intros [|c2 s2] Heq; [done| | |].
  - apply (f_equal String.length) in Heq. rewrite !length_append in Heq.
    cbn in Heq. lia.
  - apply (f_equal String.length) in Heq. rewrite !length_append in Heq.
    cbn in Heq. lia.
  - rewrite !append_cons in Heq. injection Heq as -> Heq. f_equal. by apply IH.
Qed.

Lemma pretty_N_char_digit (x : N) : (x < 10)%N -> is_digit (pretty_N_char x) = true.
Proof.
  intros Hx.
  assert (x = 0 \/ x = 1 \/ x = 2 \/ x = 3 \/ x = 4 \/ x = 5 \/ x = 6 \/ x = 7 \/
          x = 8 \/ x = 9)%N as Hcases by lia.
  destruct_or!; subst x; reflexivity.
Qed.

(** A number is written with a digit first. *)
Lemma pretty_N_go_head (x : N) (s : string) :
  (exists c rest, s = String c rest /\ is_digit c = true) ->
  exists c rest, pretty_N_go x s = String c rest /\ is_digit c = true.
Proof.
  revert s. induction (N.lt_wf_0 x) as [x _ IH]. intros s Hs.
  destruct (decide (x = 0%N)) as [->|Hx]; [by rewrite pretty_N_go_0|].
  rewrite pretty_N_go_step by lia. apply IH.
  - apply N.div_lt; lia.
  - eexists _, _. split; [reflexivity|].
    apply pretty_N_char_digit. apply N.mod_lt. lia.
Qed.

Lemma pretty_N_head (x : N) :
  exists c rest, pretty x = String c rest /\ is_digit c = true.
Proof.
  unfold pretty, pretty_N. destruct (decide (x = 0%N)) as [->|Hx].
  { by exists "0"%char, "". }
  rewrite pretty_N_go_step by lia. apply pretty_N_go_head.
  eexists _, _. split; [reflexivity|].
  apply pretty_N_char_digit. apply N.mod_lt. lia.
Qed.

Lemma pretty_append_neq (x : N) (t : string) (c : ascii) (s : string) :
  is_digit c = false -> pretty x +:+ t <> String c s.
Proof.
  intros Hc Heq. destruct (pretty_N_head x) as (d & rest & Hx & Hd).
  rewrite Hx, append_cons in Heq. injection Heq as -> _. congruence.
Qed.

Lemma days_ago_inj (x y : N) (t : string) : pretty x +:+ t = pretty y +:+ t -> x = y.
Proof. intros Heq%append_inj_r. by apply (inj pretty). Qed.

(** The three shapes of a resolved range. *)
Lemma parse_date_range_shape (date_label : string) (r : DateRange) :
  parse_date_range date_label = Ok r ->
  r = {| start_date := "yesterday"; end_date := "yesterday" |} \/
  r = {| start_date := "today"; end_date := "today" |} \/
  exists days : N,
    r = {| start_date := pretty days +:+ "daysAgo"; end_date := "today" |}.
Proof.
  unfold parse_date_range, predefined.
  repeat (case_bool_decide;
    [ intros [= <-];
      first [ by left | right; by left
            | right; right;
              first [ by exists 7%N | by exists 14%N | by exists 30%N
                    | by exists 90%N | by exists 365%N ] ]
    | ]).
  destruct (re_search (normalize date_label)) as [[g1 g2]|].
  - destruct (int_of_str g1) as [number|]; [|discriminate]. cbn [bind].
    match goal with |- context [str_of_int ?d] =>
      destruct (str_of_int d) as [text|] eqn:Htext; [|discriminate] end.
    cbn [bind]. intros [= <-]. right. right.
    unfold str_of_int in Htext.
    destruct (Nat.ltb _ _); [discriminate|]. injection Htext as <-. by eexists.
  - intros [= <-]. right. right. by exists 7%N.
Qed.

Lemma get_human_readable_range_days (days : N) :
  get_human_readable_range
    {| start_date := pretty days +:+ "daysAgo"; end_date := "today" |}
  = if bool_decide (days = 7%N) then "Last 7 days"
    else if bool_decide (days = 14%N) then "Last 14 days"
    else if bool_decide (days = 30%N) then "Last 30 days"
    else pretty days +:+ "daysAgo to today".
Proof.
  assert (forall n : N, days <> n ->
            String.eqb (pretty days +:+ "daysAgo") (pretty n +:+ "daysAgo") = false)
    as Hne.
  { intros n Hn. apply String.eqb_neq. by intros ?%days_ago_inj. }
  assert (forall c s, is_digit c = false ->
            String.eqb (pretty days +:+ "daysAgo") (String c s) = false) as Hword.
  { intros c s Hc. apply String.eqb_neq. by apply pretty_append_neq. }
  unfold get_human_readable_range. cbn [start_date end_date].
  case_bool_decide as H7; [subst; by vm_compute|].
  change "7daysAgo" with (pretty 7%N +:+ "daysAgo"). rewrite (Hne 7%N) by done.
  case_bool_decide as H14; [subst; by vm_compute|].
  change "14daysAgo" with (pretty 14%N +:+ "daysAgo"). rewrite (Hne 14%N) by done.
  case_bool_decide as H30; [subst; by vm_compute|].
  change "30daysAgo" with (pretty 30%N +:+ "daysAgo"). rewrite (Hne 30%N) by done.
  rewrite !Hword by reflexivity. cbn [andb].
  rewrite append_assoc. reflexivity.
Qed.

(** A resolved range reads [Last N days] exactly when it starts 7, 14 or 30
    days ago, however the label put it ([1month] reads [Last 30 days],
    [last_quarter] reads [90daysAgo to today]); and two labels whose ranges
    read the same resolve to the same range. *)
Theorem description_determines_range (label1 label2 : string) (r1 r2 : DateRange) :
  parse_date_range label1 = Ok r1 ->
  parse_date_range label2 = Ok r2 ->
  get_human_readable_range r1 = get_human_readable_range r2 ->
  r1 = r2.
Proof.
  assert (forall (days : N) s,
            s ∈ ["Yesterday"; "Today"; "Last 7 days"; "Last 14 days"; "Last 30 days"] ->
            pretty days +:+ "daysAgo to today" <> s) as Hword.
  { intros days s Hs. elem_cases Hs; by apply pretty_append_neq. }
  intros H1 H2.
  destruct (parse_date_range_shape label1 r1 H1) as [->|[->|[d1 ->]]];
    destruct (parse_date_range_shape label2 r2 H2) as [->|[->|[d2 ->]]];
    rewrite ?get_human_readable_range_days;
    repeat case_bool_decide; subst; try done;
    change (get_human_readable_range
              {| start_date := "yesterday"; end_date := "yesterday" |})
      with "Yesterday";
    change (get_human_readable_range
              {| start_date := "today"; end_date := "today" |})
      with "Today";
    intros Heq;
    try (exfalso; eapply Hword; [|exact Heq]; by apply (bool_decide_unpack _));
    try (exfalso; eapply Hword; [|symmetry; exact Heq];
         by apply (bool_decide_unpack _)).
  by apply days_ago_inj in Heq as ->.
Qed.

End descriptions.

(** [1week] and [last_7_days] both read [Last 7 days]. *)
Lemma description_determines_range_witness :
  exists r1 r2,
    date_parser.parse_date_range "1week" = Ok r1 /\
    date_parser.parse_date_range "last_7_days" = Ok r2 /\
    r1 = r2.
Proof.
  eexists _, _. split; [by vm_compute|]. split; [by vm_compute|].
  by apply (description_determines_range "1week" "last_7_days").
Defined.

(** ** Plans *)
Section plans.
Import ga4_validation date_parser llm.

(** What a returned [Validation] tells about the plan: it has at least one
    metric, every metric and dimension is on its allowlist, it has a date
    range, and the two counts are the lengths of its lists (no dimensions
    key counting as none). *)
Theorem validate_plan_Ok (plan : Plan) (v : Validation) :
  validate_plan plan = Ok v ->
  (exists ms, metrics plan = Some ms /\ ms <> [] /\
              Forall (fun m => m ∈ ALLOWED_METRICS) ms /\
              metrics_count v = length ms) /\
  Forall (fun d => d ∈ ALLOWED_DIMENSIONS) (default [] (dimensions plan)) /\
  dimensions_count v = length (default [] (dimensions plan)) /\
  is_Some (date_range plan) /\
  valid v = true.
Proof.
  unfold validate_plan. destruct (plan_errors plan) as [|e errs] eqn:Herr; [|discriminate].
  intros [= <-]. cbn [metrics_count dimensions_count valid].
  apply plan_errors_nil in Herr as (Hm & Hd & (m & ms & Hms) & Hdr).
  rewrite Hms in *. cbn [default from_option id] in *.
  repeat split; try done.
  - exists (m :: ms). repeat split; try done.
    apply Forall_forall. intros x Hx.
    destruct (decide (x ∈ ALLOWED_METRICS)) as [|Hbad]; [done|].
    by destruct (proj1 (filter_nil_iff _ _) Hm x Hx).
  - apply Forall_forall. intros x Hx.
    destruct (decide (x ∈ ALLOWED_DIMENSIONS)) as [|Hbad]; [done|].
    by destruct (proj1 (filter_nil_iff _ _) Hd x Hx).
Qed.

(** The rules of the fallback planner, in the order in which they win.  The
    metric rules are separate tests, so the last one that matches decides:
    bounce before page views before users.  The date rules form one chain,
    so the first one that matches decides: yesterday before month before
    week, a week meaning 14 days.  [date] is always the first dimension,
    followed by the page, country and device dimensions of the rules that
    match, in that order; the branch taken when [date] is not among the
    dimensions never runs. *)
Theorem _fallback_plan_precedence (query : string) :
  let q := lower query in
  _fallback_plan query =
    {| metrics := Some
         (if any_in ["bounce"; "engagement"] q then ["bounceRate"]
          else if any_in ["page view"; "pageview"; "views"] q then ["screenPageViews"]
          else if any_in ["user"; "visitor"; "audience"] q
               then ["totalUsers"; "activeUsers"]
          else ["sessions"]);
       dimensions := Some
         ("date" ::
            (if any_in ["page"; "url"; "path"] q then ["pagePath"] else []) ++
            (if any_in ["country"; "location"; "geo"] q then ["country"] else []) ++
            (if any_in ["device"; "mobile"; "desktop"] q then ["deviceCategory"] else []));
       date_range := Some
         (if any_in ["yesterday"] q then "yesterday"
          else if any_in ["month"; "30 days"] q then "last_30_days"
          else if any_in ["week"; "14 days"] q then "last_14_days"
          else "last_7_days");
       filters := None |}.
Proof.
  intros q. unfold _fallback_plan. fold q.
  repeat match goal with |- context [any_in ?l q] => destruct (any_in l q) end;
    reflexivity.
Qed.

(** The date token of the fallback planner is always one the resolver knows
    by name: it never falls through to the numeric pattern or the default,
    the resolver returns a range for it, and the description of that range
    is one of four. *)
Theorem _fallback_plan_date_range (query : string) :
  exists dr range,
    date_range (_fallback_plan query) = Some dr /\
    dr ∈ ["last_7_days"; "last_14_days"; "last_30_days"; "yesterday"] /\
    dr ∈ predefined_labels /\
    parse_date_range dr = Ok range /\
    get_human_readable_range range
      ∈ ["Last 7 days"; "Last 14 days"; "Last 30 days"; "Yesterday"].
Proof.
  unfold _fallback_plan. cbn [date_range].
  repeat match goal with |- context [any_in ?l ?s] => destruct (any_in l s) end;
    eexists _, _; (split; [reflexivity|]);
    (split; [by apply (bool_decide_unpack _)|]);
    (split; [by apply (bool_decide_unpack _)|]);
    (split; [by vm_compute|]);
    by apply (bool_decide_unpack _).
Qed.

(** Both keyword parsers look at the lowered query only, so the case of the
    query does not matter to them. *)
Theorem keyword_parsers_ignore_case (query : string) :
  _fallback_plan (lower query) = _fallback_plan query /\
  parse_seo_query (lower query) = parse_seo_query query.
Proof. unfold _fallback_plan, parse_seo_query. by rewrite lower_idem. Qed.

Lemma plan_errors_no_metric (plan : Plan) :
  metrics plan = Some [] -> "At least one metric is required" ∈ plan_errors plan.
Proof.
  destruct plan as [ms ds dr fs]. cbn [metrics]. intros ->.
  unfold plan_errors, validate_metrics, validate_dimensions.
  cbn [metrics dimensions date_range].
  destruct ds as [ds|]; [set (invd := filter _ ds); clearbody invd; destruct invd|];
    destruct dr; cbn; rewrite ?elem_of_cons; auto 10.
Qed.

(** The default metric stands in for a missing [metrics] key only.  A plan
    of the language model without the key is given [sessions], and is then
    rejected only for a dimension outside the allowlist; a plan whose
    [metrics] is the empty list keeps it and is rejected for having no
    metric. *)
Theorem parse_analytics_query_metrics (plan : Plan) (query : string) :
  (metrics plan = None ->
   metrics (parse_analytics_query (parsed plan) query) = Some ["sessions"] /\
   (raises (validate_plan (parse_analytics_query (parsed plan) query)) <->
    exists d, d ∈ default ["date"] (dimensions plan) /\ d ∉ ALLOWED_DIMENSIONS)) /\
  (metrics plan = Some [] ->
   exists msg,
     validate_plan (parse_analytics_query (parsed plan) query) = Raise (ValueError msg) /\
     contains "At least one metric is required" msg = true).
Proof.
  split.
  - intros Hnone. split; [cbn; by rewrite Hnone|].
    assert (raises (validate_plan (parse_analytics_query (parsed plan) query)) <->
            plan_errors (parse_analytics_query (parsed plan) query) <> []) as ->.
    { unfold validate_plan. by destruct (plan_errors _). }
    rewrite plan_errors_nil. cbn [parse_analytics_query metrics dimensions date_range].
    rewrite Hnone. cbn [default from_option id]. rewrite !filter_nil_iff. split.
    + intros Hnot.
      destruct (decide (Exists (fun d => d ∉ ALLOWED_DIMENSIONS)
                          (default ["date"] (dimensions plan)))) as [Hd|Hd].
      { by apply Exists_exists in Hd. }
      destruct Hnot. repeat split; eauto.
      * intros x Hx Hbad. apply Hbad. apply list_elem_of_singleton in Hx as ->.
        by apply (bool_decide_unpack _).
      * intros x Hx Hbad. apply Hd, Exists_exists. eauto.
    + intros (d & Hin & Hbad) (_ & Hd & _). by apply (Hd d).
  - intros Hempty.
    set (plan' := parse_analytics_query (parsed plan) query).
    assert (metrics plan' = Some []) as Hms by (unfold plan'; cbn; by rewrite Hempty).
    pose proof (plan_errors_no_metric plan' Hms) as Herr.
    exists ("GA4 plan validation failed: " +:+ join "; " (plan_errors plan')). split.
    + unfold validate_plan. destruct (plan_errors plan') eqn:He; [|done].
      by apply elem_of_nil in Herr.
    + apply contains_append_r. eapply contains_join; [exact Herr|apply contains_refl].
Qed.

End plans.

(** The plan of the fallback planner for a query about sessions. *)
Lemma validate_plan_Ok_witness :
  exists v,
    ga4_validation.validate_plan (llm._fallback_plan "sessions") = Ok v /\
    ga4_validation.dimensions_count v = 1%nat.
Proof.
  eexists. split; [by vm_compute|].
  refine (proj1 (proj2 (proj2
            (validate_plan_Ok (llm._fallback_plan "sessions") _ _)))).
  by vm_compute.
Defined.

(** ** The SEO analyses *)
Section audits.
Import llm seo_agent.

(** The floor of the health score is never reached: the five deductions add
    up to 70, so a report scores between 30 and 100, in steps of 5.  It
    lists at most five issues, counts them in [issues_found], scores 100
    exactly when it lists none, and counts every row of the table. *)
Theorem general_seo_health_range (df : DataFrame) (report : HealthReport) :
  general_seo_health df = health_report report ->
  30 <= health_score report <= 100 /\
  health_score report mod 5 = 0 /\
  issues_found report = length (issues report) /\
  (length (issues report) <= 5)%nat /\
  (health_score report = 100 <-> issues report = []) /\
  total_pages_analyzed report = length (rows df).
Proof.
  unfold general_seo_health, getitem_column.
  case_bool_decide; cbn [bind]; [|discriminate].
  destruct (str_accessor df "Address"); cbn [bind]; [|discriminate].
  case_bool_decide; cbn [bind]; [|discriminate].
  destruct (str_accessor df "Title 1"); cbn [bind]; [|discriminate].
  case_bool_decide; cbn [bind]; [|discriminate].
  unfold deduct.
  repeat match goal with |- context [Nat.ltb 0 ?n] => destruct (Nat.ltb 0 n) end;
    destruct (bool_decide ("Status Code" ∈ columns df));
    repeat match goal with |- context [Nat.ltb 0 ?n] => destruct (Nat.ltb 0 n) end;
    intros [= <-]; cbn [health_score issues_found issues total_pages_analyzed];
    (split; [by vm_compute|]);
    (split; [by vm_compute|]);
    (split; [reflexivity|]); (split; [cbn; lia|]);
    (split; [|reflexivity]); (split; [by vm_compute|discriminate || done]).
Qed.


Lemma length_substring_le (n : nat) (s : string) :
  (String.length (String.substring 0 n s) <= n)%nat.
Proof.
  revert s. induction n as [|n IH]; intros [|c s]; cbn; try lia.
  specialize (IH s). lia.
Qed.

Lemma length_excerpt (s : string) : (String.length (excerpt s) <= 103)%nat.
Proof.
  unfold excerpt. rewrite length_append.
  pose proof (length_substring_le 100 s). cbn. lia.
Qed.

Lemma long_title_finding_Some (threshold : Z) (r : Row) (f : Finding) :
  long_title_finding threshold r = Some f ->
  exists title,
    Title_1 r = Some title /\
    address_startswith "https://" r = false /\
    threshold < Z.of_nat (String.length title) /\
    finding_url f = Address r /\
    finding_title_length f = String.length title /\
    finding_title f = (if Nat.ltb 100 (String.length title) then excerpt title else title).
Proof.
  unfold long_title_finding, non_https, str_len_above.
  destruct (Title_1 r) as [title|]; [|discriminate].
  destruct (address_startswith "https://" r); [discriminate|]. cbn [negb andb].
  destruct (Z.ltb_spec threshold (Z.of_nat (String.length title))); [|discriminate].
  intros [= <-]. by exists title.
Qed.

Lemma length_omap_le {A B} (f : A -> option B) (l : list A) :
  (length (omap f l) <= length l)%nat.
Proof. induction l as [|x l IH]; [done|]. cbn. destruct (f x); cbn; lia. Qed.

(** The findings of the combined analysis.  [total_issues] is their number;
    each one comes from a row of the table whose address does not start
    with [https://] (a missing address counts) and whose title is longer
    than the threshold; it reports that row's address and the full length
    of its title, and a title of at most 103 characters, the title itself
    unless it is longer than 100. *)
Theorem analyze_non_https_long_titles_findings (df : DataFrame) (threshold : Z)
    (summary : string) (total_issues : nat) (findings : list Finding)
    (recommendations : list string) :
  analyze_non_https_long_titles df threshold
    = Ok (findings_report summary total_issues findings recommendations) ->
  total_issues = length findings /\
  (total_issues <= length (rows df))%nat /\
  Forall (fun f =>
            exists r title,
              r ∈ rows df /\ Title_1 r = Some title /\
              address_startswith "https://" r = false /\
              threshold < Z.of_nat (String.length title) /\
              finding_url f = Address r /\
              finding_title_length f = String.length title /\
              (String.length (finding_title f) <= 103)%nat /\
              ((String.length title <= 100)%nat -> finding_title f = title))
         findings.
Proof.
  unfold analyze_non_https_long_titles, getitem_column.
  case_bool_decide; cbn [bind]; [|discriminate].
  destruct (str_accessor df "Address") as [|[]]; cbn [bind]; try discriminate.
  case_bool_decide; cbn [bind]; [|discriminate].
  destruct (str_accessor df "Title 1") as [|[]]; cbn [bind]; try discriminate.
  intros [= _ <- <- _]. split; [done|]. split.
  { apply length_omap_le. }
  apply Forall_forall. intros f (r & Hr & Hf)%list_elem_of_omap.
  apply long_title_finding_Some in Hf as (title & Ht & Hs & Hlen & Hu & Hl & Htitle).
  exists r, title. repeat split; try done.
  - rewrite Htitle. destruct (Nat.ltb_spec 100 (String.length title));
      [apply length_excerpt|lia].
  - intros Hshort. rewrite Htitle.
    by destruct (Nat.ltb_spec 100 (String.length title)); [lia|].
Qed.


Lemma filter_disjoint_length {A} (p q : A -> bool) (l : list A) :
  (forall x, p x = true -> q x = false) ->
  (length (List.filter p l) + length (List.filter q l) <= length l)%nat.
Proof.
  intros Hpq. induction l as [|x l IH]; [done|]. cbn.
  destruct (p x) eqn:Hp; [rewrite (Hpq x Hp)|destruct (q x)]; cbn; lia.
Qed.

Lemma missing_not_long (threshold : Z) (cell : option string) :
  0 <= threshold -> isna_or_empty cell = true -> str_len_above threshold cell = false.
Proof.
  intros Ht. destruct cell as [s|]; [|done]. cbn.
  intros ->%String.eqb_eq. apply Z.ltb_ge. cbn. lia.
Qed.

(** The title analysis needs the title column only, as text; the threshold
    is not negative and of machine size.  Its issues are examples, at most five pages without a title followed by at most five
    with a long one, so the number in its summary is at most 10 whatever
    the statistics say; a page is not counted both as missing and as long;
    and without an address column every example has the empty URL. *)
Theorem analyze_titles_issues (df : DataFrame) (threshold : Z) :
  0 <= threshold < 2 ^ 63 ->
  "Title 1" ∈ columns df ->
  dtypes df "Title 1" = object ->
  exists summary statistics issues recommendations,
    analyze_titles df threshold
      = titles_report summary statistics issues recommendations /\
    length issues
      = (missing_titles statistics `min` 5 + long_titles statistics `min` 5)%nat /\
    summary = "Title analysis complete. Found " +:+ pretty (length issues)
                +:+ " issues across " +:+ pretty (total_pages statistics) +:+ " pages." /\
    (missing_titles statistics + long_titles statistics <= total_pages statistics)%nat /\
    (short_titles statistics <= total_pages statistics)%nat /\
    total_pages statistics = length (rows df) /\
    ("Address" ∉ columns df -> Forall (fun i => issue_url i = Some "") issues).
Proof.
  intros [Hthreshold _] Ht Htt. unfold analyze_titles.
  rewrite getitem_column_Ok, str_accessor_Ok by done. cbn [bind].
  set (missing := List.filter (fun r => isna_or_empty (Title_1 r)) (rows df)).
  set (long := List.filter (fun r => str_len_above threshold (Title_1 r)) (rows df)).
  set (short := List.filter (fun r => str_len_lt 30 (Title_1 r)) (rows df)).
  do 4 eexists. split; [reflexivity|].
  cbn [missing_titles long_titles short_titles total_pages].
  split; [|split; [reflexivity|split; [|split; [|split; [reflexivity|]]]]].
  - destruct (Nat.ltb_spec 0 (length missing)) as [Hm|Hm];
      destruct (Nat.ltb_spec 0 (length long)) as [Hl|Hl];
      rewrite ?length_app, ?length_map, ?length_take; cbn [length app]; lia.
  - apply filter_disjoint_length. intros r. by apply missing_not_long.
  - apply List.filter_length_le.
  - intros Ha.
    assert (forall r, row_get_address df r = Some "") as Hurl.
    { intros r. unfold row_get_address. by rewrite bool_decide_eq_false_2. }
    destruct (Nat.ltb 0 (length missing)); destruct (Nat.ltb 0 (length long));
      rewrite ?Forall_app, ?Forall_nil, ?Forall_map; repeat split;
      try (apply Forall_forall; intros r _; cbn; apply Hurl); done.
Qed.


(** Both of the single-column analyses turn a missing column, and a column
    that is not text, into an error of their own. *)
Lemma single_column_analyses_errors (df : DataFrame) (threshold : Z) :
  (("Title 1" ∉ columns df) ->
   analyze_titles df threshold = titles_error "Title analysis failed: 'Title 1'") /\
  ("Title 1" ∈ columns df -> dtypes df "Title 1" <> object ->
   analyze_titles df threshold
     = titles_error ("Title analysis failed: " +:+ str_accessor_message)) /\
  (("Meta Description 1" ∉ columns df) ->
   analyze_meta_descriptions df threshold
     = meta_error "Meta description analysis failed: 'Meta Description 1'") /\
  ("Meta Description 1" ∈ columns df -> dtypes df "Meta Description 1" <> object ->
   analyze_meta_descriptions df threshold
     = meta_error ("Meta description analysis failed: " +:+ str_accessor_message)).
Proof.
  unfold analyze_titles, analyze_meta_descriptions, getitem_column.
  repeat split; intros;
    rewrite ?bool_decide_eq_false_2, ?bool_decide_eq_true_2 by done; cbn [bind];
    rewrite ?str_accessor_Raise by done; done.
Qed.

Variable non_https_long_titles_analysis : Z -> Py.result (gmap string Value).
Variable titles_analysis : Z -> Py.result (gmap string Value).
Variable meta_descriptions_analysis : Z -> Py.result (gmap string Value).
Variable https_usage_analysis : Py.result (gmap string Value).
Variable seo_health_analysis : Py.result (gmap string Value).

Local Abbreviation run :=
  (seo_agent.run non_https_long_titles_analysis titles_analysis
     meta_descriptions_analysis https_usage_analysis seo_health_analysis).

(** The SEO agent's dispatch, from the words of the query.  The parameters
    the parser attaches always bind to the chosen method, each threshold at
    its default; the agent runs exactly one analysis, stamps its result
    with the analysis type and the query, and turns an exception of the
    analysis into an error that still carries the query. *)
Theorem run_dispatch (query : string) :
  let q := lower query in
  let chosen :=
    if contains "title" q && contains "https" q
    then ("non_https_long_titles", non_https_long_titles_analysis 60)
    else if contains "title" q then ("title_analysis", titles_analysis 60)
    else if contains "meta" q
         then ("meta_description_analysis", meta_descriptions_analysis 160)
    else if contains "https" q then ("https_analysis", https_usage_analysis)
    else ("general_seo_health", seo_health_analysis) in
  run query =
    match chosen.2 with
    | Ok result =>
        <[ "analysis_type" := VStr chosen.1 ]> (<[ "query" := VStr query ]> result)
    | Raise e =>
        <[ "error" := VStr ("SEO analysis failed: " +:+ str_of_exn e) ]>
        (<[ "query" := VStr query ]> ∅)
    end.
Proof.
  intros q chosen. subst chosen. unfold seo_agent.run, parse_seo_query. fold q.
  destruct (contains "title" q); destruct (contains "https" q);
    destruct (contains "meta" q); cbn [andb analysis_type parameters fst snd].
  all: unfold call_with_keywords; cbn [unexpected_keyword keyword].
  all: repeat match goal with
       | |- context [String.eqb ?a ?b] =>
           let v := eval vm_compute in (String.eqb a b) in
           change (String.eqb a b) with v
       | |- context [bool_decide (?k ∈ ?l)] =>
           let v := eval vm_compute in (bool_decide (k ∈ l)) in
           change (bool_decide (k ∈ l)) with v
       end.
  all: match goal with |- context [bind ?c _] => destruct c end; reflexivity.
Qed.

End audits.

(** The sample table: there is an [http://] address, a long title, an
    empty meta description and a page that is not found, so it scores 45. *)
Lemma general_seo_health_range_witness :
  exists report,
    seo_agent.general_seo_health seo_agent._create_sample_data
      = seo_agent.health_report report /\
    30 <= seo_agent.health_score report <= 100 /\
    seo_agent.health_score report = 45.
Proof.
  eexists. split; [by vm_compute|]. split; [|by vm_compute].
  refine (proj1 (general_seo_health_range seo_agent._create_sample_data _ _)).
  by vm_compute.
Defined.

(** The sample table at the default threshold: the home page and the blog
    post. *)
Lemma analyze_non_https_long_titles_findings_witness :
  exists summary findings recommendations,
    seo_agent.analyze_non_https_long_titles seo_agent._create_sample_data 60
      = Ok (seo_agent.findings_report summary 2 findings recommendations) /\
    2%nat = length findings.
Proof.
  do 3 eexists. split; [by vm_compute|].
  refine (proj1 (analyze_non_https_long_titles_findings
                   seo_agent._create_sample_data 60 _ _ _ _ _)).
  by vm_compute.
Defined.

(** The sample table at the default threshold: no title is missing, two
    are long. *)
Lemma analyze_titles_issues_witness :
  exists summary statistics issues recommendations,
    seo_agent.analyze_titles seo_agent._create_sample_data 60
      = seo_agent.titles_report summary statistics issues recommendations /\
    length issues
      = (seo_agent.missing_titles statistics `min` 5
         + seo_agent.long_titles statistics `min` 5)%nat.
Proof.
  destruct (analyze_titles_issues seo_agent._create_sample_data 60)
    as (summary & statistics & issues & recommendations & Hrun & Hlen & _).
  - lia.
  - by apply (bool_decide_unpack _).
  - reflexivity.
  - by exists summary, statistics, issues, recommendations.
Defined.


